(** * The date-selection engine of the DatePicker (src/DatePicker/useDatePicker.tsx)

    A shallow embedding of [parseSelection], of the handlers that
    [DatePickerProvider] publishes ([onSelection], [onDayFocus], [onDayBlur],
    [saveValue], [revertValue], the month navigation), of the derived
    [formattedDate] and of the per-day flags computed by [useDatePicker],
    followed by the properties of the engine.  Two more components come
    after the engine, with their properties at the end: the inner visual of
    the text input (src/_TextInputInnerVisualSlot.tsx) and the slots of a
    component (src/utils/create-slots.tsx).

    Conventions of the embedding.
    - A JavaScript [Date] carries a time value: a number of milliseconds
      since the epoch, or NaN for an Invalid Date.  Time values are integers
      here; the bound of 8.64e15 ms that ECMAScript puts on them is not
      modelled.
    - [toDateString] prints the local calendar day; the local zone is taken
      to be UTC, so that a calendar day is a block of [msPerDay] milliseconds.
      What the host reads back from the printed day is modelled for the
      years 100 to 9999 (see [toDay]).
    - [null] and [undefined] are one value: the code only tests them with
      [!], [&&], [??] and [?.], which do not tell them apart.
    - A selection is made of Dates.  The string forms that the provider also
      accepts ([StringSelection]) go through [new Date(string)], the date
      parser of the host, and are left out.
    - A thrown exception is an explicit outcome.
    - The [configuration] property of the provider is taken to be the same
      object from one render to the next, so that the effect which parses
      the selection again runs when the provider mounts and when the mode
      changes, not after every update.
    - [format], [addMonths] and [subMonths] of date-fns are parameters of
      the engine; its comparisons [isEqual], [isBefore] and [isAfter] are
      comparisons of time values and are written out. *)

From Stdlib Require Import ZArith Lia Bool.
From stdpp Require Import base numbers option list sorting strings pretty gmap.

Open Scope Z_scope.

(** ** Dates *)

Inductive Date : Type :=
| ValidDate (t : Z)      (* a Date whose time value is the number t *)
| InvalidDate.           (* a Date whose time value is NaN *)

#[global] Instance Date_eq_dec : EqDecision Date.
Proof. solve_decision. Defined.

(** [d.getTime()]; [None] stands for NaN. *)
Definition getTime (d : Date) : option Z :=
  match d with
  | ValidDate t => Some t
  | InvalidDate => None
  end.

Definition isValid (d : Date) : bool :=
  match d with
  | ValidDate _ => true
  | InvalidDate => false
  end.

Definition msPerDay : Z := 86400000.

(** The first millisecond of the calendar day of the time value [t]. *)
Definition dayStart (t : Z) : Z := msPerDay * (t / msPerDay).

(** The idiom [new Date(new Date(d).toDateString())] of the source: the
    midnight that starts the calendar day of [d].  An Invalid Date prints as
    "Invalid Date", which parses to an Invalid Date again.  The idiom reads
    back what [toDateString] printed, and the parser of the host reads the
    year as printed for the years 100 to 9999 only: it takes a year from 0
    to 99 for a year of the twentieth or twenty-first century and makes an
    Invalid Date of a year before 0.  The definition is the idiom on the
    time values of [plainYear] and on the Invalid Date; the theorems that
    say which day the idiom yields assume such dates. *)
Definition toDay (d : Date) : Date :=
  match d with
  | ValidDate t => ValidDate (dayStart t)
  | InvalidDate => InvalidDate
  end.

(** The time values from 0100-01-01T00:00:00.000 to 9999-12-31T23:59:59.999. *)
Definition firstPlainTime : Z := -59011459200000.
Definition lastPlainTime : Z := 253402300799999.

Definition plainYear (t : Z) : Prop := firstPlainTime ≤ t ≤ lastPlainTime.

(** A date that the idiom reads back as it prints it: a date of the years
    100 to 9999, or the Invalid Date. *)
Definition plainDate (d : Date) : Prop :=
  match d with
  | ValidDate t => plainYear t
  | InvalidDate => True
  end.

(** The Date made of [a[i]], by [new Date(a[i])] in the parser and by the
    [toDate] of date-fns inside [format]: the element when there is one, and
    an Invalid Date for the [undefined] found past the end. *)
Definition dateAt (a : list Date) (i : nat) : Date :=
  default InvalidDate (a !! i).

(** *** The comparisons imported from date-fns

    Each one compares the two time values; a comparison with NaN is false. *)

Definition isEqual (a b : Date) : bool :=
  match getTime a, getTime b with
  | Some x, Some y => x =? y
  | _, _ => false
  end.

Definition isBefore (a b : Date) : bool :=
  match getTime a, getTime b with
  | Some x, Some y => x <? y
  | _, _ => false
  end.

Definition isAfter (a b : Date) : bool :=
  match getTime a, getTime b with
  | Some x, Some y => y <? x
  | _, _ => false
  end.

(** *** [Array.prototype.sort] with the comparator of the source *)

(** [(a, b) => a.getTime() - b.getTime()]; [None] stands for NaN. *)
Definition compareTime (a b : Date) : option Z :=
  match getTime a, getTime b with
  | Some x, Some y => Some (x - y)
  | _, _ => None
  end.

(** The sort moves [a] behind [b] when the comparator is positive; a NaN
    result counts as +0 (ECMAScript, SortCompare). *)
Definition sortsAfter (a b : Date) : bool :=
  match compareTime a b with
  | Some v => 0 <? v
  | None => false
  end.

Fixpoint insertByTime (x : Date) (l : list Date) : list Date :=
  match l with
  | [] => [x]
  | y :: l' => if sortsAfter x y then y :: insertByTime x l' else x :: y :: l'
  end.

(** A stable sort.  On valid dates the comparator is a total preorder and
    every conforming sort returns this list.  With an Invalid Date in the
    array the comparator is not consistent and ECMAScript leaves the order
    to the implementation: the list below is then one of the orders an
    engine may return and need not be the one a given engine returns.  The
    theorems about the order of a sorted array are about valid dates. *)
Definition sortByTime (l : list Date) : list Date :=
  foldr insertByTime [] l.

(** ** Selections *)

Inductive SelectionVariant : Type :=
| single
| multi
| range
| unknownVariant (name : string).   (* a string the type does not list *)

Record RangeSelection : Type := mkRange {
  from : Date;
  to : option Date                    (* Date | null *)
}.

(** [Selection | undefined].  The last constructor is a value that the type
    excludes and that the final [else] branches of the source receive: a
    truthy value that is no Date, no array, and has no truthy [from]
    (for instance the object [{}]); it is not iterable. *)
Inductive Selection : Type :=
| SelNull
| SelDate (d : Date)
| SelArray (ds : list Date)
| SelRange (r : RangeSelection)
| SelOther.

#[global] Instance RangeSelection_eq_dec : EqDecision RangeSelection.
Proof. solve_decision. Defined.

#[global] Instance Selection_eq_dec : EqDecision Selection.
Proof. solve_decision. Defined.

(** The shape tests of the source.  The functions below test the shape of a
    selection by pattern matching: [SelNull] is the one falsy selection,
    [SelDate] is [instanceof Date], [SelArray] is [Array.isArray] and
    [SelRange] is [isRangeSelection]. *)
Definition isSingleSelection (s : Selection) : bool :=
  match s with
  | SelDate _ => true
  | _ => false
  end.

Definition isMultiSelection (s : Selection) : bool :=
  match s with
  | SelArray _ => true
  | _ => false
  end.

(** [!!selection.from]: a Date object is truthy, also an invalid one. *)
Definition isRangeSelection (s : Selection) : bool :=
  match s with
  | SelRange _ => true
  | _ => false
  end.

(** ** The selection parser *)

Definition parseSelection (selection : Selection) (variant : SelectionVariant)
  : Selection :=
  match variant with
  | multi =>
      match selection with
      | SelNull => SelNull
      | SelArray ds => SelArray (sortByTime (toDay <$> ds))
      | SelDate d => SelArray [toDay d]
      | SelRange r =>
          SelArray (sortByTime
                      (toDay (from r) ::
                       match to r with
                       | Some t => [toDay t]
                       | None => []
                       end))
      | SelOther => SelNull
      end
  | range =>
      match selection with
      | SelNull => SelNull
      | SelRange r => SelRange (mkRange (toDay (from r)) (toDay <$> to r))
      | SelArray ds => SelRange (mkRange (toDay (dateAt ds 0)) (toDay <$> ds !! 1%nat))
      | SelDate d => SelRange (mkRange (toDay d) None)
      | SelOther => SelNull
      end
  | _ =>
      match selection with
      | SelNull => SelNull
      | SelDate d => SelDate (toDay d)
      | SelArray ds => SelDate (toDay (dateAt ds 0))
      | SelRange r => SelDate (toDay (from r))
      | SelOther => SelNull
      end
  end.

(** ** Configuration *)

Inductive AnchorVariant : Type := anchorInput | anchorButton | anchorIconOnly.
Inductive View : Type := oneMonth | twoMonth.
Inductive WeekStart : Type := Sunday | Monday.

(** The configuration after [deepmerge(defaultConfiguration, externalConfig)]:
    the fields that have a default always hold a value, the others may be
    absent. *)
Module Config.

Record t : Type := mk {
  anchorVariant : AnchorVariant;
  blockedDates : option (list Date);
  confirmation : bool;
  contiguousSelection : bool;
  dateFormat : option string;
  dimWeekends : bool;
  minDate : option Date;
  maxDate : option Date;
  placeholder : string;
  rangeIncrement : option Z;
  selection : SelectionVariant;
  view : View;
  weekStartsOn : WeekStart
}.

End Config.

Definition DatePickerConfiguration : Type := Config.t.

Definition defaultConfiguration : DatePickerConfiguration :=
  {| Config.anchorVariant := anchorButton;
     Config.blockedDates := None;
     Config.confirmation := false;
     Config.contiguousSelection := false;
     Config.dateFormat := None;
     Config.dimWeekends := false;
     Config.minDate := None;
     Config.maxDate := None;
     Config.placeholder := "Select a Date...";
     Config.rangeIncrement := None;
     Config.selection := single;
     Config.view := twoMonth;
     Config.weekStartsOn := Sunday |}.

(** ** Exceptions *)

Inductive JsError : Type := TypeError | RangeError.

Inductive outcome (A : Type) : Type :=
| Returns (a : A)
| Throws (e : JsError).

Arguments Returns {A} a.
Arguments Throws {A} e.

#[global] Instance outcome_ret : MRet outcome := @Returns.
#[global] Instance outcome_bind : MBind outcome := λ A B f m,
  match m with
  | Returns a => f a
  | Throws e => Throws e
  end.
#[global] Instance outcome_fmap : FMap outcome := λ A B f m,
  match m with
  | Returns a => Returns (f a)
  | Throws e => Throws e
  end.

(** ** The store of the provider *)

(** The five state variables of [DatePickerProvider], the [closePicker]
    property (present or not) and the number of times it has been called. *)
Record Store : Type := mkStore {
  configuration : DatePickerConfiguration;
  previousSelection : Selection;
  selection : Selection;
  hoverRange : option RangeSelection;
  currentViewingDate : Date;
  closePicker : bool;
  closeCalls : nat
}.

(** A handler runs against the state of the render that created it and
    queues state updates; React applies the queue in order afterwards. *)
Inductive Update : Type :=
| setSelection (s : Selection)
| setPreviousSelection (s : Selection)
| setHoverRange (h : option RangeSelection)
| setCurrentViewingDate (d : Date)
| callClosePicker.

Definition applyUpdate (st : Store) (u : Update) : Store :=
  match u with
  | setSelection s =>
      mkStore (configuration st) (previousSelection st) s (hoverRange st)
              (currentViewingDate st) (closePicker st) (closeCalls st)
  | setPreviousSelection s =>
      mkStore (configuration st) s (selection st) (hoverRange st)
              (currentViewingDate st) (closePicker st) (closeCalls st)
  | setHoverRange h =>
      mkStore (configuration st) (previousSelection st) (selection st) h
              (currentViewingDate st) (closePicker st) (closeCalls st)
  | setCurrentViewingDate d =>
      mkStore (configuration st) (previousSelection st) (selection st)
              (hoverRange st) d (closePicker st) (closeCalls st)
  | callClosePicker =>
      mkStore (configuration st) (previousSelection st) (selection st)
              (hoverRange st) (currentViewingDate st) (closePicker st)
              (S (closeCalls st))
  end.

Definition applyUpdates (st : Store) (us : list Update) : Store :=
  foldl applyUpdate st us.

(** The initial state: [useState(parseSelection(value, configuration.selection))]
    twice, no hover range, today as the viewed date. *)
Definition initialStore (cfg : DatePickerConfiguration) (value : Selection)
    (today : Date) (hasClosePicker : bool) : Store :=
  {| configuration := cfg;
     previousSelection := parseSelection value (Config.selection cfg);
     selection := parseSelection value (Config.selection cfg);
     hoverRange := None;
     currentViewingDate := today;
     closePicker := hasClosePicker;
     closeCalls := 0 |}.

(** The effect of the provider, as it runs when the provider mounts and
    whenever the mode changes, for a [configuration] property that has not
    changed: [setConfiguration] stores the configuration there was, and the
    selection is parsed again under the mode of the current render. *)
Definition reparseEffect (st : Store) : list Update :=
  [setSelection (parseSelection (selection st) (Config.selection (configuration st)))].

(** ** Handlers *)

(** [updatedSelection ?? selection] *)
Definition orElse (a b : Selection) : Selection :=
  match a with
  | SelNull => b
  | _ => a
  end.

(** [saveValue(updatedSelection)]; [closePicker?.()] calls the property when
    it is there. *)
Definition saveValue (st : Store) (updatedSelection : Selection) : list Update :=
  setPreviousSelection (orElse updatedSelection (selection st)) ::
  (if closePicker st then [callClosePicker] else []).

(** [[...selection]]: only an array is iterable among the values a selection
    can be. *)
Definition spread (s : Selection) : outcome (list Date) :=
  match s with
  | SelArray ds => Returns ds
  | _ => Throws TypeError
  end.

(** [Array.prototype.findIndex]; [None] stands for -1. *)
Fixpoint findIndex {A : Type} (p : A → bool) (l : list A) : option nat :=
  match l with
  | [] => None
  | x :: l' => if p x then Some 0%nat else S <$> findIndex p l'
  end.

Definition selectionHandler (st : Store) (date : Date) : outcome (list Update) :=
  match Config.selection (configuration st) with
  | multi =>
      selections ← spread (selection st);
      match findIndex (λ s, isEqual s date) selections with
      | Some existingIndex =>
          (* selections.splice(existingIndex, 1) *)
          mret [setSelection (SelArray (sortByTime (delete existingIndex selections)))]
      | None =>
          mret [setSelection (SelArray (sortByTime (selections ++ [date])))]
      end
  | range =>
      let startRange :=
        [setHoverRange (Some (mkRange date (Some date)));
         setSelection (SelRange (mkRange date None))] in
      match selection st with
      | SelRange (mkRange selFrom None) =>
          let updatedSelection :=
            if isBefore date selFrom
            then mkRange date (Some selFrom)
            else mkRange selFrom (Some date) in
          mret ([setSelection (SelRange updatedSelection); setHoverRange None] ++
                if Config.confirmation (configuration st) then []
                else saveValue st (SelRange updatedSelection))
      | _ => mret startRange
      end
  | _ =>
      mret (setSelection (SelDate date) ::
            if Config.confirmation (configuration st) then []
            else saveValue st (SelDate date))
  end.

Definition focusHnadler (st : Store) (date : Date) : list Update :=
  match selection st with
  | SelNull => []
  | sel =>
      match Config.selection (configuration st), sel, hoverRange st with
      | range, SelRange r, Some _ =>
          [setHoverRange
             (Some (if isBefore date (from r)
                    then mkRange date (Some (from r))
                    else mkRange (from r) (Some date)))]
      | _, _, _ => []
      end
  end.

(** The body of the blur handler is commented out in the source. *)
Definition blurHnadler (st : Store) (date : Date) : list Update := [].

Definition revertValue (st : Store) : list Update :=
  [setSelection (previousSelection st)].

Definition goToMonth (date : Date) : list Update :=
  [setCurrentViewingDate (toDay date)].

(** The state after a handler has run: its updates applied in order.  A
    handler that throws has queued nothing (the one [throw] of the engine
    precedes every update) and the state stays as it was. *)
Definition after (st : Store) (o : outcome (list Update)) : Store :=
  match o with
  | Returns us => applyUpdates st us
  | Throws _ => st
  end.

(** The state after the day [date] was chosen. *)
Definition onSelection (st : Store) (date : Date) : Store :=
  after st (selectionHandler st date).

(** ** The per-day flags of [useDatePicker] *)

(** [blocked] is declared without a value and assigned only when a date is
    given and [blockedDates] is configured: [None] stands for [undefined]. *)
Definition blocked (st : Store) (date : option Date) : option bool :=
  match date with
  | Some d =>
      match Config.blockedDates (configuration st) with
      | Some bs =>
          (* !!blockedDates.find(...): the date found is an object, truthy *)
          Some (match List.find (λ b, isEqual b d) bs with
                | Some _ => true
                | None => false
                end)
      | None => None
      end
  | None => None
  end.

Definition disabled (st : Store) (date : option Date) : bool :=
  match date with
  | Some d =>
      match Config.minDate (configuration st) with
      | Some m => isBefore d m
      | None => false
      end
      ||
      match Config.maxDate (configuration st) with
      | Some m => isAfter d m
      | None => false
      end
  | None => false
  end.

(** [DaySelection], the type of the [selected] state of a day:
    [boolean | 'start' | 'middle' | 'end']. *)
Inductive DaySelection : Type :=
| selBool (b : bool)
| selStart
| selMiddle
| selEnd.

#[global] Instance DaySelection_eq_dec : EqDecision DaySelection.
Proof. solve_decision. Defined.

(** The four-way test that the effect of [useDatePicker] applies to the
    hover range and to a range selection. *)
Definition rangeStatus (date : Date) (r : RangeSelection) : DaySelection :=
  if isEqual date (from r) then selStart
  else if match to r with
          | Some t => isEqual date t
          | None => false
          end then selEnd
  else if isAfter date (from r)
          && match to r with
             | Some t => isBefore date t
             | None => false
             end then selMiddle
  else selBool false.

(** The effect of [useDatePicker]: the value it hands to [setSelected], or
    [None] when it makes no call (no date, or neither a hover range nor a
    selection).  A selection of no known shape goes to the last branch,
    where [isEqual] of date-fns reads it as an Invalid Date. *)
Definition selectedEffect (st : Store) (date : option Date) : option DaySelection :=
  match date with
  | None => None
  | Some date =>
      match hoverRange st with
      | Some h => Some (rangeStatus date h)
      | None =>
          match selection st with
          | SelNull => None
          | SelArray ds =>
              Some (selBool (match List.find (λ d, isEqual d date) ds with
                             | Some _ => true
                             | None => false
                             end))
          | SelRange r => Some (rangeStatus date r)
          | SelDate d => Some (selBool (isEqual date d))
          | SelOther => Some (selBool false)
          end
      end
  end.

(** The [selected] state of a day after the effect has run in the state
    [st]: the value set, or the value it had when nothing was set. *)
Definition selected (previous : DaySelection) (st : Store) (date : option Date)
  : DaySelection :=
  default previous (selectedEffect st date).

(** ** A Gregorian instance of the date-fns functions

    [format], [addMonths] and [subMonths] belong to date-fns, not to this
    repository: the engine below takes them as parameters.  The instance
    given here follows the documentation of date-fns on the proleptic
    Gregorian calendar (in UTC) and serves to run the engine on concrete
    dates. *)

(** The number of the day [y]-[m]-[d], counted from 1970-01-01. *)
Definition daysFromCivil (y m d : Z) : Z :=
  let y' := if m <=? 2 then y - 1 else y in
  let era := y' / 400 in
  let yoe := y' - era * 400 in
  let doy := (153 * (if 2 <? m then m - 3 else m + 9) + 2) / 5 + d - 1 in
  let doe := yoe * 365 + yoe / 4 - yoe / 100 + doy in
  era * 146097 + doe - 719468.

(** Year, month (1 to 12) and day of the month of a day number. *)
Definition civilFromDays (z : Z) : Z * Z * Z :=
  let z' := z + 719468 in
  let era := z' / 146097 in
  let doe := z' - era * 146097 in
  let yoe := (doe - doe / 1460 + doe / 36524 - doe / 146096) / 365 in
  let doy := doe - (365 * yoe + yoe / 4 - yoe / 100) in
  let mp := (5 * doy + 2) / 153 in
  let d := doy - (153 * mp + 2) / 5 + 1 in
  let m := if mp <? 10 then mp + 3 else mp - 9 in
  (if m <=? 2 then yoe + era * 400 + 1 else yoe + era * 400, m, d).

(** Midnight of the calendar day [y]-[m]-[d]. *)
Definition ymd (y m d : Z) : Date :=
  ValidDate (msPerDay * daysFromCivil y m d).

Definition monthName (m : Z) : string :=
  match m with
  | 1 => "Jan" | 2 => "Feb" | 3 => "Mar" | 4 => "Apr"
  | 5 => "May" | 6 => "Jun" | 7 => "Jul" | 8 => "Aug"
  | 9 => "Sep" | 10 => "Oct" | 11 => "Nov" | _ => "Dec"
  end.

Definition decimal (n : Z) : string := pretty n.

(** The token [yyyy]: the year of the era on four digits at least. *)
Definition fourDigits (y : Z) : string :=
  let e := if 0 <? y then y else 1 - y in
  (if e <? 10 then "000" else if e <? 100 then "00" else if e <? 1000 then "0" else "")
  +:+ decimal e.

(** [format(date, template)] for the two templates the source names; it
    throws a RangeError on an Invalid Date.  Other templates are not covered
    by this instance, which answers them with the same error. *)
Definition formatGregorian (date : Date) (template : string) : outcome string :=
  match date with
  | InvalidDate => Throws RangeError
  | ValidDate t =>
      let '(y, m, d) := civilFromDays (t / msPerDay) in
      if decide (template = "MMM d") then
        Returns (monthName m +:+ " " +:+ decimal d)
      else if decide (template = "MMM d, yyyy") then
        Returns (monthName m +:+ " " +:+ decimal d +:+ ", " +:+ fourDigits y)
      else Throws RangeError
  end.

(** [addMonths(date, amount)]: the same day of the month [amount] months
    later, or the last day of that month when it is shorter; the time of day
    is kept. *)
Definition addMonthsGregorian (date : Date) (amount : Z) : Date :=
  match date with
  | InvalidDate => InvalidDate
  | ValidDate t =>
      let '(y, m, d) := civilFromDays (t / msPerDay) in
      let months := y * 12 + (m - 1) + amount in
      let y' := months / 12 in
      let m' := months mod 12 + 1 in
      let daysInMonth :=
        daysFromCivil (if m' =? 12 then y' + 1 else y')
                      (if m' =? 12 then 1 else m' + 1) 1
        - daysFromCivil y' m' 1 in
      ValidDate (msPerDay * daysFromCivil y' m' (Z.min d daysInMonth)
                 + t mod msPerDay)
  end.

(** ** The engine over date-fns *)

Section Engine.

(** [format] and [addMonths] of date-fns.  [format] throws on an Invalid
    Date and on a template it cannot read. *)
Variable format : Date → string → outcome string.
Variable addMonths : Date → Z → Date.

(** date-fns defines [subMonths(date, amount)] as [addMonths(date, -amount)]. *)
Definition subMonths (date : Date) (amount : Z) : Date :=
  addMonths date (- amount).

Definition nextMonth (st : Store) : list Update :=
  [setCurrentViewingDate (addMonths (currentViewingDate st) 1)].

Definition previousMonth (st : Store) : list Update :=
  [setCurrentViewingDate (subMonths (currentViewingDate st) 1)].

(** The template chosen from [configuration.dateFormat]; an empty string is
    falsy and keeps the default. *)
Definition template (cfg : DatePickerConfiguration) : string :=
  match Config.dateFormat cfg with
  | Some f =>
      if decide (f = "") then "MMM d"
      else if decide (f = "short") then "MMM d"
      else if decide (f = "long") then "MMM d, yyyy"
      else f
  | None => "MMM d"
  end.

(** [date ? format(date, template) : ''] *)
Definition formatOrEmpty (tpl : string) (date : option Date) : outcome string :=
  match date with
  | Some d => format d tpl
  | None => Returns ""
  end.

(** [Array.prototype.join] *)
Definition join (sep : string) (parts : list string) : string :=
  String.concat sep parts.

Definition getFormattedDate (st : Store) : outcome string :=
  let cfg := configuration st in
  let tpl := template cfg in
  match selection st with
  | SelNull => Returns (Config.placeholder cfg)
  | sel =>
      match Config.selection cfg with
      | single =>
          match sel with
          | SelDate d => format d tpl
          | SelArray ds => format (dateAt ds 0) tpl
          | SelRange r => format (from r) tpl
          | _ => Returns "Invalid Selection"
          end
      | multi =>
          match sel with
          | SelArray ds =>
              if (3 <? length ds)%nat
              then Returns (pretty (length ds) +:+ " Selected")
              else join ", " <$> mapM (λ d, format d tpl) ds
          | SelDate d => join ", " <$> mapM (λ d, format d tpl) [d]
          | SelRange r =>
              join ", " <$> mapM (formatOrEmpty tpl) [to r; Some (from r)]
          | _ => Returns "Invalid Selection"
          end
      | range =>
          match sel with
          | SelRange r =>
              (* Object.entries lists [from] before [to] *)
              join " - " <$> mapM (formatOrEmpty tpl) [Some (from r); to r]
          | SelDate d =>
              join " - " <$> mapM (formatOrEmpty tpl) [Some d; None]
          | SelArray ds =>
              join " - " <$> mapM (formatOrEmpty tpl) [ds !! 0%nat; ds !! 1%nat]
          | _ => Returns "Invalid Selection"
          end
      | unknownVariant _ => Returns "Invalid Configuration"
      end
  end.

(** The calls a consumer of the context can make. *)
Inductive Event : Type :=
| OnSelection (date : Date)
| OnDayFocus (date : Date)
| OnDayBlur (date : Date)
| GoToMonth (date : Date)
| NextMonth
| PreviousMonth
| SaveValue (updatedSelection : Selection)
| RevertValue.

Definition handle (st : Store) (ev : Event) : outcome (list Update) :=
  match ev with
  | OnSelection date => selectionHandler st date
  | OnDayFocus date => Returns (focusHnadler st date)
  | OnDayBlur date => Returns (blurHnadler st date)
  | GoToMonth date => Returns (goToMonth date)
  | NextMonth => Returns (nextMonth st)
  | PreviousMonth => Returns (previousMonth st)
  | SaveValue updatedSelection => Returns (saveValue st updatedSelection)
  | RevertValue => Returns (revertValue st)
  end.

Definition dispatch (st : Store) (ev : Event) : Store :=
  after st (handle st ev).

Definition run (st : Store) (evs : list Event) : Store :=
  foldl dispatch st evs.

End Engine.

(** * The inner visual of the text input (src/_TextInputInnerVisualSlot.tsx)

    The component is a function of its properties; what it returns is kept
    as a tree with the style properties that the function computes. *)

(** The children handed to the component, by what the code asks of them
    (their truthiness) and by what React makes of them. *)
Inductive Children (Node : Type) : Type :=
| noChildren
    (* null, undefined, false, the empty string: falsy, nothing is rendered *)
| falsyNumber (text : string)
    (* 0 or NaN: falsy, and React prints the number *)
| someChildren (node : Node).
    (* anything truthy *)

Arguments noChildren {Node}.
Arguments falsyNumber {Node} text.
Arguments someChildren {Node} node.

Definition isTruthy {Node : Type} (children : Children Node) : bool :=
  match children with
  | someChildren _ => true
  | _ => false
  end.

Inductive VisualPosition : Type := leading | trailing.

#[global] Instance VisualPosition_eq_dec : EqDecision VisualPosition.
Proof. solve_decision. Defined.

Inductive Visibility : Type := visible | hidden.

(** [{left: 0}] or [{right: 0}] *)
Inductive Inset : Type := insetLeft | insetRight.

(** The properties of the [Spinner].  With [spinnerOverlay] the style is
    [position: absolute], [top: 0], [height] and [maxWidth] of 100% and the
    inset; without it the style is the visibility alone.  [spinnerSmall]
    stands for [size='small']. *)
Record SpinnerProps : Type := mkSpinner {
  spinnerOverlay : option Inset;
  spinnerVisibility : Visibility;
  spinnerSmall : bool
}.

Inductive InnerVisual (Node : Type) : Type :=
| visualNull
    (* null *)
| visualIcon (children : Children Node)
    (* <span className="TextInput-icon">{children}</span> *)
| visualLoading (children : Children (Visibility * Node)) (spinner : SpinnerProps).
    (* the span with, in a box, [children && <Box sx={{visibility}}>]: the
       truthy children in a box of their own with a visibility, or the
       falsy children as they are; and the spinner *)

Arguments visualNull {Node}.
Arguments visualIcon {Node} children.
Arguments visualLoading {Node} children spinner.

Definition TextInputInnerVisualSlot {Node : Type} (children : Children Node)
    (hasLoadingIndicator : bool) (showLoadingIndicator : option bool)
    (visualPosition : VisualPosition) : InnerVisual Node :=
  let falsy := negb (isTruthy children) in
  (* [showLoadingIndicator] is [boolean | undefined] *)
  let showing := default false showLoadingIndicator in
  let isLeading := match visualPosition with leading => true | trailing => false end in
  if (falsy && negb hasLoadingIndicator)
     || (isLeading && falsy && negb showing)
  then visualNull
  else if negb hasLoadingIndicator then visualIcon children
  else
    visualLoading
      (match children with
       | someChildren c => someChildren (if showing then hidden else visible, c)
       | falsyNumber text => falsyNumber text
       | noChildren => noChildren
       end)
      (if isTruthy children
       then mkSpinner (Some (if isLeading then insetLeft else insetRight))
                      (if showing then visible else hidden) false
       else mkSpinner None (if showing then visible else hidden) true).

(** * The slots of a component (src/utils/create-slots.tsx)

    The two references of [Slots] are objects keyed by slot names: a map in
    which a key is absent ([undefined]), or present with the contents
    registered or with [null].  [useForceUpdate] comes from a file that is
    not among the sources; what is kept of it is the number of times the
    update is forced.  [registerSlot] reads the [isMounted] of the render
    that made it; a call is taken to go to the callback of the latest
    render, as the effect of a [Slot] does, which runs again when the
    callback changes. *)

Section Slots.

Context {Node Meta : Type}.

Record SlotsState : Type := mkSlots {
  slotsRef : gmap string (option Node);          (* ReactNode, or null *)
  slotsMetadataRef : gmap string (option Meta);  (* the metadata, or undefined *)
  isMounted : bool;
  forcedUpdates : nat
}.

(** The first render: [slotNames.map(name => (slotsDefinition[name] = null))]
    and an empty object of metadata. *)
Definition initialSlots (slotNames : list string) : SlotsState :=
  {| slotsRef := foldl (λ slots name, <[name := None]> slots) ∅ slotNames;
     slotsMetadataRef := ∅;
     isMounted := false;
     forcedUpdates := 0 |}.

(** The effect of [Slots], which fires after the effects of the children. *)
Definition slotsMounted (s : SlotsState) : SlotsState :=
  {| slotsRef := slotsRef s;
     slotsMetadataRef := slotsMetadataRef s;
     isMounted := true;
     forcedUpdates := S (forcedUpdates s) |}.

Definition registerSlot (s : SlotsState) (name : string)
    (contents : option Node) (metadata : option Meta) : SlotsState :=
  {| slotsRef := <[name := contents]> (slotsRef s);
     slotsMetadataRef := <[name := metadata]> (slotsMetadataRef s);
     isMounted := isMounted s;
     forcedUpdates := if isMounted s then S (forcedUpdates s) else forcedUpdates s |}.

Definition unregisterSlot (s : SlotsState) (name : string) : SlotsState :=
  {| slotsRef := <[name := None]> (slotsRef s);
     slotsMetadataRef := slotsMetadataRef s;
     isMounted := isMounted s;
     forcedUpdates := S (forcedUpdates s) |}.

(** What the children of [Slots] do to it: a [Slot] registers in its effect
    and unregisters in the cleanup of the effect. *)
Inductive SlotCall : Type :=
| Register (name : string) (contents : option Node) (metadata : option Meta)
| Unregister (name : string).

Definition slotCall (s : SlotsState) (c : SlotCall) : SlotsState :=
  match c with
  | Register name contents metadata => registerSlot s name contents metadata
  | Unregister name => unregisterSlot s name
  end.

Definition slotCalls (s : SlotsState) (cs : list SlotCall) : SlotsState :=
  foldl slotCall s cs.

End Slots.

Arguments SlotsState : clear implicits.
Arguments SlotCall : clear implicits.

(** * The vocabulary of the properties *)

(** [a] may stand right before [b] in a sorted array. *)
Definition inOrder (a b : Date) : Prop := sortsAfter a b = false.

(** [a <= b] on two Dates: the time values compared, false with NaN. *)
Definition dateLe (a b : Date) : bool :=
  match getTime a, getTime b with
  | Some x, Some y => x <=? y
  | _, _ => false
  end.

(** The invariant of the specification: a closed range has [from <= to] on
    calendar days. *)
Definition rangeInvariant (s : Selection) : Prop :=
  match s with
  | SelRange (mkRange f (Some t)) => dateLe (toDay f) (toDay t) = true
  | _ => True
  end.

(** What the day choices maintain: a closed range has [from <= to] on the
    time values, and an open range starts at a valid date. *)
Definition rangeOrdered (s : Selection) : Prop :=
  match s with
  | SelRange (mkRange f (Some t)) => dateLe f t = true
  | SelRange (mkRange f None) => isValid f = true
  | _ => True
  end.

(** A range that awaits its second endpoint starts at a valid date. *)
Definition startsValid (s : Selection) : Prop :=
  match s with
  | SelRange (mkRange f None) => isValid f = true
  | _ => True
  end.

(** The first two dates of the value handed to the parser are in calendar
    order, when it has two. *)
Definition endpointsInOrder (v : Selection) : Prop :=
  match v with
  | SelRange (mkRange f (Some t)) => dateLe (toDay f) (toDay t) = true
  | SelArray (f :: t :: _) => dateLe (toDay f) (toDay t) = true
  | _ => True
  end.

(** [deepmerge(defaultConfiguration, {selection, confirmation})] *)
Definition configured (variant : SelectionVariant) (confirm : bool)
  : DatePickerConfiguration :=
  {| Config.anchorVariant := anchorButton;
     Config.blockedDates := None;
     Config.confirmation := confirm;
     Config.contiguousSelection := false;
     Config.dateFormat := None;
     Config.dimWeekends := false;
     Config.minDate := None;
     Config.maxDate := None;
     Config.placeholder := "Select a Date...";
     Config.rangeIncrement := None;
     Config.selection := variant;
     Config.view := twoMonth;
     Config.weekStartsOn := Sunday |}.

(** How many times the time value [t] occurs in [ts]. *)
Definition occurrences (t : Z) (ts : list Z) : nat := count_occ Z.eq_dec ts t.

(** The state [st] with an open range that starts at [d] as its selection:
    every state with an open range is one of these. *)
Definition withOpenRange (st : Store) (d : Date) : Store :=
  applyUpdate st (setSelection (SelRange (mkRange d None))).

(** The selection awaits its second endpoint. *)
Definition isPending (s : Selection) : bool :=
  match s with
  | SelRange (mkRange _ None) => true
  | _ => false
  end.

(** The range with the endpoints [a] and [b], the earlier one first; [a]
    comes first when neither is earlier. *)
Definition orderedRange (a b : Date) : RangeSelection :=
  if isBefore b a then mkRange b (Some a) else mkRange a (Some b).

(** The updates write no [previousSelection]: nothing is committed. *)
Definition keepsPrevious (us : list Update) : bool :=
  forallb (λ u, match u with
                | setPreviousSelection _ => false
                | _ => true
                end) us.

(** [deepmerge(configuration, {blockedDates})] for a configuration without
    blocked dates. *)
Definition withBlockedDates (bs : list Date) (cfg : DatePickerConfiguration)
  : DatePickerConfiguration :=
  {| Config.anchorVariant := Config.anchorVariant cfg;
     Config.blockedDates := Some bs;
     Config.confirmation := Config.confirmation cfg;
     Config.contiguousSelection := Config.contiguousSelection cfg;
     Config.dateFormat := Config.dateFormat cfg;
     Config.dimWeekends := Config.dimWeekends cfg;
     Config.minDate := Config.minDate cfg;
     Config.maxDate := Config.maxDate cfg;
     Config.placeholder := Config.placeholder cfg;
     Config.rangeIncrement := Config.rangeIncrement cfg;
     Config.selection := Config.selection cfg;
     Config.view := Config.view cfg;
     Config.weekStartsOn := Config.weekStartsOn cfg |}.

(** [deepmerge(configuration, {dateFormat})] *)
Definition withDateFormat (f : string) (cfg : DatePickerConfiguration)
  : DatePickerConfiguration :=
  {| Config.anchorVariant := Config.anchorVariant cfg;
     Config.blockedDates := Config.blockedDates cfg;
     Config.confirmation := Config.confirmation cfg;
     Config.contiguousSelection := Config.contiguousSelection cfg;
     Config.dateFormat := Some f;
     Config.dimWeekends := Config.dimWeekends cfg;
     Config.minDate := Config.minDate cfg;
     Config.maxDate := Config.maxDate cfg;
     Config.placeholder := Config.placeholder cfg;
     Config.rangeIncrement := Config.rangeIncrement cfg;
     Config.selection := Config.selection cfg;
     Config.view := Config.view cfg;
     Config.weekStartsOn := Config.weekStartsOn cfg |}.

(** The two dates have the same time value, a number. *)
Definition sameTime (a b : Date) : Prop :=
  ∃ t, getTime a = Some t ∧ getTime b = Some t.

(** The two dates fall on the same calendar day. *)
Definition sameDay (a b : Date) : Prop := sameTime (toDay a) (toDay b).

(** The state [st] with [s] as its selection. *)
Definition withSelection (st : Store) (s : Selection) : Store :=
  applyUpdate st (setSelection s).

(** The dates a selection holds. *)
Definition datesOf (s : Selection) : list Date :=
  match s with
  | SelDate d => [d]
  | SelArray ds => ds
  | SelRange r =>
      from r :: match to r with
                | Some t => [t]
                | None => []
                end
  | _ => []
  end.

(** [deepmerge(configuration, {minDate, maxDate})] *)
Definition withBounds (lo hi : Date) (cfg : DatePickerConfiguration)
  : DatePickerConfiguration :=
  {| Config.anchorVariant := Config.anchorVariant cfg;
     Config.blockedDates := Config.blockedDates cfg;
     Config.confirmation := Config.confirmation cfg;
     Config.contiguousSelection := Config.contiguousSelection cfg;
     Config.dateFormat := Config.dateFormat cfg;
     Config.dimWeekends := Config.dimWeekends cfg;
     Config.minDate := Some lo;
     Config.maxDate := Some hi;
     Config.placeholder := Config.placeholder cfg;
     Config.rangeIncrement := Config.rangeIncrement cfg;
     Config.selection := Config.selection cfg;
     Config.view := Config.view cfg;
     Config.weekStartsOn := Config.weekStartsOn cfg |}.

(** A hover range is there only while a range awaits its second endpoint. *)
Definition hoverOnlyWhilePending (st : Store) : bool :=
  match hoverRange st with
  | Some _ => isPending (selection st)
  | None => true
  end.

(** The call is not [revertValue]. *)
Definition notRevert (ev : Event) : bool :=
  match ev with
  | RevertValue => false
  | _ => true
  end.

(** The state after [revertValue]. *)
Definition reverted (st : Store) : Store := applyUpdates st (revertValue st).

(** The state after the day [date] got the focus. *)
Definition focused (st : Store) (date : Date) : Store :=
  applyUpdates st (focusHnadler st date).

(** The state after [saveValue(updatedSelection)]. *)
Definition saved (st : Store) (updatedSelection : Selection) : Store :=
  applyUpdates st (saveValue st updatedSelection).

(** The children are a falsy number, which React prints. *)
Definition isFalsyNumber {Node : Type} (children : Children Node) : bool :=
  match children with
  | falsyNumber _ => true
  | _ => false
  end.

(** The children of the inner visual are rendered and visible: truthy
    children in the plain icon or in a visible box, or a falsy number,
    which is printed as it is. *)
Definition showsChildren {Node : Type} (v : InnerVisual Node) : bool :=
  match v with
  | visualNull => false
  | visualIcon children => isTruthy children || isFalsyNumber children
  | visualLoading (someChildren (visible, _)) _ => true
  | visualLoading (falsyNumber _) _ => true
  | visualLoading _ _ => false
  end.

(** The spinner of the inner visual is rendered and visible. *)
Definition showsSpinner {Node : Type} (v : InnerVisual Node) : bool :=
  match v with
  | visualLoading _ spinner =>
      match spinnerVisibility spinner with
      | visible => true
      | hidden => false
      end
  | _ => false
  end.

(** The inner visual renders an element. *)
Definition rendersElement {Node : Type} (v : InnerVisual Node) : bool :=
  match v with
  | visualNull => false
  | _ => true
  end.

(** The call moves the viewed month, or is a blur. *)
Definition isNavigation (ev : Event) : bool :=
  match ev with
  | GoToMonth _ | NextMonth | PreviousMonth | OnDayBlur _ => true
  | _ => false
  end.

(** How many of the calls unregister a slot. *)
Definition unregistrations {Node Meta : Type} (cs : list (SlotCall Node Meta)) : nat :=
  foldr (λ c n, match c with
                | Unregister _ => S n
                | Register _ _ _ => n
                end) 0%nat cs.

Section Tentative.

Variable addMonths : Date → Z → Date.

(** A call is tentative in the state [st] when its handler commits nothing
    there. *)
Definition isTentative (st : Store) (ev : Event) : bool :=
  match handle addMonths st ev with
  | Returns us => keepsPrevious us
  | Throws _ => true
  end.

(** Every call of the sequence is tentative in the state it is made in. *)
Fixpoint allTentative (st : Store) (evs : list Event) : bool :=
  match evs with
  | [] => true
  | ev :: evs' =>
      isTentative st ev && allTentative (dispatch addMonths st ev) evs'
  end.

End Tentative.

(** * Properties *)

(** ** The scenarios of the specification *)

(** Range mode without confirmation: March 10 is chosen, March 15 is
    focused, March 5 is chosen. *)
Example scenario_range :
  let st0 := initialStore (withDateFormat "long" (configured range false))
               SelNull (ymd 2024 3 1) true in
  let st1 := run addMonthsGregorian st0 [OnSelection (ymd 2024 3 10)] in
  let st2 := run addMonthsGregorian st1 [OnDayFocus (ymd 2024 3 15)] in
  let st3 := run addMonthsGregorian st2 [OnSelection (ymd 2024 3 5)] in
  selection st1 = SelRange (mkRange (ymd 2024 3 10) None)
  ∧ hoverRange st1 = Some (mkRange (ymd 2024 3 10) (Some (ymd 2024 3 10)))
  ∧ hoverRange st2 = Some (mkRange (ymd 2024 3 10) (Some (ymd 2024 3 15)))
  ∧ selection st3 = SelRange (mkRange (ymd 2024 3 5) (Some (ymd 2024 3 10)))
  ∧ hoverRange st3 = None
  ∧ previousSelection st3 = SelRange (mkRange (ymd 2024 3 5) (Some (ymd 2024 3 10)))
  ∧ closeCalls st3 = 1%nat
  ∧ getFormattedDate formatGregorian st3 = Returns "Mar 5, 2024 - Mar 10, 2024".
Proof. by split_and!. Qed.

(** Multi mode: the array of the example is formatted with its repeated
    day. *)
Example scenario_multi :
  getFormattedDate formatGregorian
    (initialStore (withDateFormat "short" (configured multi false))
       (SelArray [ymd 2024 1 3; ymd 2024 1 1; ymd 2024 1 1]) (ymd 2024 1 1) true)
  = Returns "Jan 1, Jan 1, Jan 3".
Proof. reflexivity. Qed.

(** ** Calendar days *)

Lemma toDay_valid (t : Z) : toDay (ValidDate t) = ValidDate (dayStart t).
Proof. reflexivity. Qed.

Lemma dayStart_idem (t : Z) : dayStart (dayStart t) = dayStart t.
Proof.
  unfold dayStart. f_equal.
  rewrite Z.mul_comm. apply Z.div_mul. unfold msPerDay. lia.
Qed.

Lemma dayStart_mono (a b : Z) : a ≤ b → dayStart a ≤ dayStart b.
Proof.
  intros Hab. unfold dayStart.
  apply Z.mul_le_mono_nonneg_l; [unfold msPerDay; lia|].
  apply Z.div_le_mono; [unfold msPerDay; lia | exact Hab].
Qed.

Lemma dayStart_le (t : Z) : dayStart t ≤ t.
Proof. unfold dayStart. apply Z.mul_div_le. unfold msPerDay. lia. Qed.

Lemma toDay_idem (d : Date) : toDay (toDay d) = toDay d.
Proof. destruct d as [t|]; simpl; [|reflexivity]. f_equal. apply dayStart_idem. Qed.

Lemma toDay_isValid (d : Date) : isValid (toDay d) = isValid d.
Proof. by destruct d. Qed.

(** ** The sort *)

Lemma sortsAfter_valid (x y : Z) :
  sortsAfter (ValidDate x) (ValidDate y) = bool_decide (y < x).
Proof.
  unfold sortsAfter. simpl.
  destruct (Z.ltb_spec 0 (x - y)); symmetry;
    [apply bool_decide_eq_true | apply bool_decide_eq_false]; lia.
Qed.

Lemma sortsAfter_asym (a b : Date) : sortsAfter a b = true → sortsAfter b a = false.
Proof.
  destruct a as [x|], b as [y|]; try done.
  rewrite !sortsAfter_valid.
  intros H%bool_decide_eq_true. apply bool_decide_eq_false. lia.
Qed.

Lemma insertByTime_Permutation (x : Date) (l : list Date) :
  insertByTime x l ≡ₚ x :: l.
Proof.
  induction l as [|y l IH]; simpl; [done|].
  destruct (sortsAfter x y); [|done].
  rewrite IH. apply Permutation_swap.
Qed.

Lemma sortByTime_Permutation (l : list Date) : sortByTime l ≡ₚ l.
Proof.
  induction l as [|x l IH]; simpl; [done|].
  rewrite insertByTime_Permutation. by rewrite IH.
Qed.

Lemma insertByTime_HdRel (a x : Date) (l : list Date) :
  inOrder a x → HdRel inOrder a l → HdRel inOrder a (insertByTime x l).
Proof.
  intros Hax Hal. destruct l as [|y l]; simpl; [by constructor|].
  destruct (sortsAfter x y); constructor; [by inversion Hal | done].
Qed.

Lemma insertByTime_Sorted (x : Date) (l : list Date) :
  Sorted inOrder l → Sorted inOrder (insertByTime x l).
Proof.
  induction 1 as [|y l Hl IH Hy]; simpl; [repeat constructor|].
  destruct (sortsAfter x y) eqn:Hxy.
  - constructor; [exact IH|].
    apply insertByTime_HdRel; [|exact Hy]. by apply sortsAfter_asym.
  - constructor; [by constructor|]. by constructor.
Qed.

Lemma sortByTime_Sorted (l : list Date) : Sorted inOrder (sortByTime l).
Proof.
  induction l as [|x l IH]; simpl; [constructor|].
  by apply insertByTime_Sorted.
Qed.

(** Sorting leaves an array alone when no element sorts after its successor. *)
Lemma sortByTime_fixed (l : list Date) : Sorted inOrder l → sortByTime l = l.
Proof.
  induction 1 as [|x l Hl IH Hx]; simpl; [done|].
  rewrite IH. destruct Hx as [|y l' Hxy]; simpl; [done|].
  unfold inOrder in Hxy. by rewrite Hxy.
Qed.

Lemma sortByTime_idem (l : list Date) : sortByTime (sortByTime l) = sortByTime l.
Proof. apply sortByTime_fixed, sortByTime_Sorted. Qed.

(** On valid dates, being in order is [≤] on the time values. *)
Lemma Sorted_inOrder_valid (ts : list Z) :
  Sorted inOrder (ValidDate <$> ts) → Sorted Z.le ts.
Proof.
  induction ts as [|t ts IH]; simpl; [constructor|].
  intros H. inversion H as [|? ? Hs Hh]; subst.
  constructor; [by apply IH|].
  destruct ts as [|u ts]; simpl in *; constructor.
  inversion Hh as [|? ? Htu]; subst.
  unfold inOrder in Htu. rewrite sortsAfter_valid in Htu.
  apply bool_decide_eq_false in Htu. lia.
Qed.

(** A permutation of valid dates is a list of valid dates. *)
Lemma Permutation_valid (l : list Date) (ts : list Z) :
  l ≡ₚ ValidDate <$> ts → ∃ us, l = ValidDate <$> us ∧ us ≡ₚ ts.
Proof.
  intros Hp. apply Permutation_map_inv in Hp as (us & -> & Hus).
  exists us. split; [done|]. by symmetry.
Qed.

Lemma sortByTime_valid (ts : list Z) :
  ∃ us, sortByTime (ValidDate <$> ts) = ValidDate <$> us
        ∧ us ≡ₚ ts ∧ Sorted Z.le us.
Proof.
  destruct (Permutation_valid _ _ (sortByTime_Permutation (ValidDate <$> ts)))
    as (us & Hus & Hp).
  exists us. split_and!; [done..|].
  apply Sorted_inOrder_valid. rewrite <- Hus. apply sortByTime_Sorted.
Qed.

Lemma fmap_toDay_fixed (l : list Date) :
  Forall (λ d, toDay d = d) l → toDay <$> l = l.
Proof. induction 1 as [|d l Hd _ IH]; csimpl; [done|]. by rewrite Hd, IH. Qed.

Lemma Forall_toDay_fmap (l : list Date) : Forall (λ d, toDay d = d) (toDay <$> l).
Proof. apply Forall_fmap, Forall_forall. intros d _. apply toDay_idem. Qed.

(** Parsing an array of whole days a second time changes nothing. *)
Lemma sortByTime_toDay_again (l : list Date) :
  Forall (λ d, toDay d = d) l →
  sortByTime (toDay <$> sortByTime l) = sortByTime l.
Proof.
  intros Hl. rewrite fmap_toDay_fixed; [apply sortByTime_idem|].
  by rewrite sortByTime_Permutation.
Qed.

(** ** The parser *)

Lemma fmap_toDay_valid (ts : list Z) :
  toDay <$> (ValidDate <$> ts) = ValidDate <$> (dayStart <$> ts).
Proof. rewrite <- !list_fmap_compose. reflexivity. Qed.

(** C1, as the code has it.  For every array of dates of the years 100 to
    9999, given by their time values [ts], [parseSelection] in multi mode
    returns an array that holds the calendar day of every element, as many
    times as the element occurs (a permutation of the days: nothing is
    removed), in ascending order. *)
Theorem parseSelection_multi_array (ts : list Z) :
  Forall plainYear ts →
  ∃ us : list Z,
    parseSelection (SelArray (ValidDate <$> ts)) multi = SelArray (ValidDate <$> us)
    ∧ us ≡ₚ dayStart <$> ts
    ∧ Sorted Z.le us.
Proof.
  intros _.
  destruct (sortByTime_valid (dayStart <$> ts)) as (us & Heq & Hperm & Hsorted).
  exists us. split_and!; [|done..].
  simpl. by rewrite fmap_toDay_valid, Heq.
Qed.

(** The theorem at work on the array of the specification, the first date
    at noon: 2024-01-03T12:00, 2024-01-01, 2024-01-01. *)
Lemma parseSelection_multi_array_witness :
  ∃ us : list Z,
    parseSelection
      (SelArray (ValidDate <$> [1704283200000; 1704067200000; 1704067200000])) multi
    = SelArray (ValidDate <$> us)
    ∧ us ≡ₚ dayStart <$> [1704283200000; 1704067200000; 1704067200000]
    ∧ Sorted Z.le us.
Proof.
  apply parseSelection_multi_array.
  repeat (constructor; [unfold plainYear, firstPlainTime, lastPlainTime; lia|]).
  constructor.
Defined.

(** C1, as the claim states it, fails on the example of the specification:
    the day that occurs twice in the input occurs twice in the result. *)
Lemma parseSelection_multi_keeps_duplicates :
  parseSelection (SelArray [ymd 2024 1 3; ymd 2024 1 1; ymd 2024 1 1]) multi
    = SelArray [ymd 2024 1 1; ymd 2024 1 1; ymd 2024 1 3]
  ∧ parseSelection (SelArray [ymd 2024 1 3; ymd 2024 1 1; ymd 2024 1 1]) multi
    ≠ SelArray [ymd 2024 1 1; ymd 2024 1 3].
Proof. split; [reflexivity | discriminate]. Qed.

Lemma parseSelection_multi_again (v : Selection) :
  parseSelection (parseSelection v multi) multi = parseSelection v multi.
Proof.
  destruct v as [|d|ds|[f t]|]; simpl; try reflexivity.
  - by rewrite toDay_idem.
  - f_equal. apply sortByTime_toDay_again, Forall_toDay_fmap.
  - f_equal. destruct t as [t|].
    + apply (sortByTime_toDay_again [toDay f; toDay t]).
      repeat constructor; apply toDay_idem.
    + simpl. by rewrite toDay_idem.
Qed.

Lemma parseSelection_range_again (v : Selection) :
  parseSelection (parseSelection v range) range = parseSelection v range.
Proof.
  destruct v as [|d|ds|[f t]|]; simpl; rewrite ?toDay_idem; try reflexivity.
  - by destruct (ds !! 1%nat); simpl; rewrite ?toDay_idem.
  - by destruct t; simpl; rewrite ?toDay_idem.
Qed.

(** In single mode, and in a mode that is none of the three. *)
Lemma parseSelection_single_again (v : Selection) (m : SelectionVariant) :
  m ≠ multi → m ≠ range →
  parseSelection (parseSelection v m) m = parseSelection v m.
Proof.
  intros Hmulti Hrange.
  destruct m; try done; destruct v; simpl; by rewrite ?toDay_idem.
Qed.

(** X26.  The effect that runs when the provider mounts finds the selection
    parsed already and leaves the state as it is, for every configuration
    and every value. *)
Lemma reparseEffect_initialStore (cfg : DatePickerConfiguration) (v : Selection)
    (today : Date) (hasClosePicker : bool) :
  applyUpdates (initialStore cfg v today hasClosePicker)
    (reparseEffect (initialStore cfg v today hasClosePicker))
  = initialStore cfg v today hasClosePicker.
Proof.
  unfold reparseEffect, initialStore, applyUpdates; simpl. f_equal.
  destruct (Config.selection cfg) eqn:Hm;
    auto using parseSelection_multi_again, parseSelection_range_again;
    by apply parseSelection_single_again.
Qed.

(** C9.  Parsing is idempotent: for every value [v] (null, a date, an array
    of dates, a from/to pair; also a value of no known shape) and every
    mode [m], parsing the parsed value again returns it unchanged. *)
Theorem parseSelection_idempotent (v : Selection) (m : SelectionVariant) :
  parseSelection (parseSelection v m) m = parseSelection v m.
Proof.
  destruct m as [| | |name].
  - by apply parseSelection_single_again.
  - apply parseSelection_multi_again.
  - apply parseSelection_range_again.
  - by apply parseSelection_single_again.
Qed.

(** ** The range invariant *)

Lemma dateLe_toDay (a b : Date) : dateLe a b = true → dateLe (toDay a) (toDay b) = true.
Proof.
  destruct a as [x|], b as [y|]; simpl; try done.
  unfold dateLe; simpl. rewrite !Z.leb_le. apply dayStart_mono.
Qed.

Lemma rangeOrdered_rangeInvariant (s : Selection) : rangeOrdered s → rangeInvariant s.
Proof.
  destruct s as [| | |[f [t|]]|]; simpl; try done. apply dateLe_toDay.
Qed.

(** No update touches the configuration or the [closePicker] property. *)
Lemma applyUpdates_configuration (us : list Update) (st : Store) :
  configuration (applyUpdates st us) = configuration st
  ∧ closePicker (applyUpdates st us) = closePicker st.
Proof.
  revert st. induction us as [|u us IH]; intros st; [done|].
  unfold applyUpdates in *. simpl. destruct (IH (applyUpdate st u)) as [-> ->].
  by destruct u.
Qed.

Lemma after_configuration (st : Store) (o : outcome (list Update)) :
  configuration (after st o) = configuration st.
Proof. destruct o; [apply applyUpdates_configuration | done]. Qed.

Lemma onSelection_configuration (st : Store) (d : Date) :
  configuration (onSelection st d) = configuration st.
Proof. apply after_configuration. Qed.

(** The selection after a day choice in range mode. *)
Lemma onSelection_range (st : Store) (d : Date) :
  Config.selection (configuration st) = range →
  selection (onSelection st d) =
    match selection st with
    | SelRange (mkRange f None) =>
        SelRange (if isBefore d f then mkRange d (Some f) else mkRange f (Some d))
    | _ => SelRange (mkRange d None)
    end.
Proof.
  intros Hm. unfold onSelection, selectionHandler. rewrite Hm.
  destruct (selection st) as [| | |[f [t|]]|]; try reflexivity.
  simpl. destruct (Config.confirmation (configuration st)); [reflexivity|].
  unfold saveValue. by destruct (closePicker st).
Qed.

Lemma rangeOrdered_startsValid (s : Selection) : rangeOrdered s → startsValid s.
Proof. by destruct s as [| | |[f [t|]]|]. Qed.

(** One day choice puts the range in order, whatever it was before. *)
Lemma onSelection_rangeOrdered (st : Store) (t : Z) :
  Config.selection (configuration st) = range →
  startsValid (selection st) →
  rangeOrdered (selection (onSelection st (ValidDate t))).
Proof.
  intros Hm Hs. rewrite onSelection_range by done.
  destruct (selection st) as [| | |[[f|] [u|]]|]; simpl in *; try done.
  unfold isBefore, dateLe; simpl.
  destruct (Z.ltb_spec t f); simpl; apply Z.leb_le; lia.
Qed.

Lemma choices_rangeOrdered (ts : list Z) (st : Store) :
  Config.selection (configuration st) = range →
  rangeOrdered (selection st) →
  rangeOrdered (selection (foldl onSelection st (ValidDate <$> ts))).
Proof.
  revert st. induction ts as [|t ts IH]; intros st Hm Hs; [done|].
  simpl. apply IH.
  - by rewrite onSelection_configuration.
  - by apply onSelection_rangeOrdered, rangeOrdered_startsValid.
Qed.

Lemma parseSelection_range_invariant (v : Selection) :
  rangeInvariant (parseSelection v range) ↔ endpointsInOrder v.
Proof.
  destruct v as [|d|[|f [|t ds]]|[f [t|]]|]; simpl; rewrite ?toDay_idem; done.
Qed.

(** C2, as the code has it.  In range mode, after one day choice or more,
    the range held by the store is in order by time value: a closed range
    has [from <= to], and an open one starts at a valid date; this whatever
    the selection was before (a reversed range that the parser let in, for
    one), provided that a range pending at the start began at a valid date.
    When its dates are of the years 100 to 9999, the range is in order by
    calendar day as well.  The parser keeps the endpoints it is given in
    the order they come: for a value whose dates are of the years 100 to
    9999 (or invalid), its result satisfies the invariant exactly when the
    supplied endpoints are in calendar order. *)
Theorem range_invariant_of_day_choices (st : Store) (ts : list Z) (v : Selection) :
  Config.selection (configuration st) = range →
  startsValid (selection st) →
  ts ≠ [] →
  Forall plainDate (datesOf v) →
  rangeOrdered (selection (foldl onSelection st (ValidDate <$> ts)))
  ∧ (Forall plainDate (datesOf (selection (foldl onSelection st (ValidDate <$> ts)))) →
     rangeInvariant (selection (foldl onSelection st (ValidDate <$> ts))))
  ∧ (rangeInvariant (parseSelection v range) ↔ endpointsInOrder v).
Proof.
  intros Hm Hs Hts _.
  assert (rangeOrdered (selection (foldl onSelection st (ValidDate <$> ts)))) as Hord.
  { destruct ts as [|t ts]; [done|]. simpl. apply choices_rangeOrdered.
    - by rewrite onSelection_configuration.
    - by apply onSelection_rangeOrdered. }
  split_and!; [done | | apply parseSelection_range_invariant].
  intros _. by apply rangeOrdered_rangeInvariant.
Qed.

(** The theorem at work: the provider starts from a reversed pair, and two
    day choices, the later day first, leave an ordered range. *)
Lemma range_invariant_of_day_choices_witness :
  rangeOrdered
    (selection (foldl onSelection
                  (initialStore (configured range false)
                     (SelRange (mkRange (ymd 2024 1 3) (Some (ymd 2024 1 1))))
                     (ymd 2024 3 1) true)
                  (ValidDate <$> [1710028800000; 1709596800000])))
  ∧ (rangeInvariant
       (parseSelection (SelArray [ymd 2024 3 5; ymd 2024 3 10]) range)
     ↔ endpointsInOrder (SelArray [ymd 2024 3 5; ymd 2024 3 10])).
Proof.
  destruct (range_invariant_of_day_choices
              (initialStore (configured range false)
                 (SelRange (mkRange (ymd 2024 1 3) (Some (ymd 2024 1 1))))
                 (ymd 2024 3 1) true)
              [1710028800000; 1709596800000]
              (SelArray [ymd 2024 3 5; ymd 2024 3 10]))
    as (Hord & _ & Hparse).
  - reflexivity.
  - exact I.
  - discriminate.
  - repeat (constructor; [vm_compute; split; discriminate|]).
    constructor.
  - split; [exact Hord | exact Hparse].
Defined.

(** C2, as the claim states it, fails for the parser: a from/to pair given
    in reverse order is held by the store as it came, its [to] before its
    [from]. *)
Lemma parseSelection_range_keeps_reversed_pair :
  selection (initialStore (configured range false)
               (SelRange (mkRange (ymd 2024 1 3) (Some (ymd 2024 1 1))))
               (ymd 2024 1 1) true)
    = SelRange (mkRange (ymd 2024 1 3) (Some (ymd 2024 1 1)))
  ∧ ¬ rangeInvariant
        (selection (initialStore (configured range false)
                      (SelRange (mkRange (ymd 2024 1 3) (Some (ymd 2024 1 1))))
                      (ymd 2024 1 1) true)).
Proof. split; [reflexivity | vm_compute; discriminate]. Qed.

(** ** The toggle of multi mode *)

Lemma findIndex_Some {A : Type} (p : A → bool) (l : list A) (i : nat) :
  findIndex p l = Some i → ∃ x, l !! i = Some x ∧ p x = true.
Proof.
  revert i. induction l as [|y l IH]; intros i; simpl; [done|].
  destruct (p y) eqn:Hy.
  - intros [= <-]. by exists y.
  - destruct (findIndex p l) as [j|]; simpl; [|done].
    intros [= <-]. by apply IH.
Qed.

Lemma findIndex_None {A : Type} (p : A → bool) (l : list A) :
  findIndex p l = None → Forall (λ x, p x = false) l.
Proof.
  induction l as [|y l IH]; simpl; [constructor|].
  destruct (p y) eqn:Hy; [done|].
  destruct (findIndex p l); simpl; [done|]. intros _. constructor; auto.
Qed.

Lemma isEqual_valid (x y : Z) :
  isEqual (ValidDate x) (ValidDate y) = true ↔ x = y.
Proof. unfold isEqual; simpl. apply Z.eqb_eq. Qed.

#[global] Instance ValidDate_inj : Inj (=) (=) ValidDate.
Proof. by intros x y [= ->]. Qed.

(** The selection after a day choice in multi mode, when the selection is
    an array. *)
Lemma onSelection_multi (st : Store) (ds : list Date) (d : Date) :
  Config.selection (configuration st) = multi →
  selection st = SelArray ds →
  selection (onSelection st d) =
    SelArray (match findIndex (λ s, isEqual s d) ds with
              | Some i => sortByTime (delete i ds)
              | None => sortByTime (ds ++ [d])
              end).
Proof.
  intros Hm Hs. unfold onSelection, selectionHandler. rewrite Hm, Hs. simpl.
  by destruct (findIndex _ ds).
Qed.

(** The toggle on valid dates: a date of the selection is taken out once,
    another date is put in, and the array comes back sorted. *)
Lemma onSelection_multi_toggle (st : Store) (ts : list Z) (t : Z) :
  Config.selection (configuration st) = multi →
  selection st = SelArray (ValidDate <$> ts) →
  ∃ us, selection (onSelection st (ValidDate t)) = SelArray (ValidDate <$> us)
        ∧ Sorted Z.le us
        ∧ ((t ∈ ts ∧ (t :: us) ≡ₚ ts) ∨ ((t ∉ ts) ∧ us ≡ₚ (t :: ts))).
Proof.
  intros Hm Hs. rewrite (onSelection_multi st _ _ Hm Hs).
  destruct (findIndex _ _) as [i|] eqn:Hfind.
  - apply findIndex_Some in Hfind as (x & Hi & Hx).
    apply list_lookup_fmap_Some in Hi as (u & -> & Hu).
    apply isEqual_valid in Hx as ->.
    rewrite <- list_fmap_delete.
    destruct (sortByTime_valid (delete i ts)) as (us & -> & Hp & Hsorted).
    exists us. split_and!; [done..|]. left. split.
    + by eapply list_elem_of_lookup_2.
    + rewrite Hp. symmetry. by apply delete_Permutation.
  - apply findIndex_None in Hfind.
    change [ValidDate t] with (ValidDate <$> [t]). rewrite <- fmap_app.
    destruct (sortByTime_valid (ts ++ [t])) as (us & -> & Hp & Hsorted).
    exists us. split_and!; [done..|]. right. split.
    + intros Hin. apply (list_elem_of_fmap_2 ValidDate) in Hin.
      rewrite Forall_forall in Hfind. apply Hfind in Hin.
      by rewrite (proj2 (isEqual_valid t t)) in Hin.
    + rewrite Hp. by rewrite Permutation_app_comm.
Qed.

Lemma occurrences_not_elem_of (t : Z) (ts : list Z) :
  occurrences t ts = 0%nat ↔ t ∉ ts.
Proof.
  unfold occurrences. rewrite <- count_occ_not_In. by rewrite list_elem_of_In.
Qed.

Lemma occurrences_Permutation (t : Z) (ts us : list Z) :
  ts ≡ₚ us → occurrences t ts = occurrences t us.
Proof. intros Hp. unfold occurrences. by apply Permutation_count_occ. Qed.

(** C8, as the code has it.  In multi mode, for a selection of dates (given
    by their time values [ts]) that holds the date [t] at most once,
    choosing [t] twice leaves the dates of the selection: the same dates,
    each as often as before, in ascending order; so the set of selected
    calendar days is the one before. *)
Theorem toggle_twice_restores (st : Store) (ts : list Z) (t : Z) :
  Config.selection (configuration st) = multi →
  selection st = SelArray (ValidDate <$> ts) →
  (occurrences t ts ≤ 1)%nat →
  ∃ us, selection (onSelection (onSelection st (ValidDate t)) (ValidDate t))
          = SelArray (ValidDate <$> us)
        ∧ us ≡ₚ ts
        ∧ Sorted Z.le us
        ∧ ∀ day, day ∈ dayStart <$> us ↔ day ∈ dayStart <$> ts.
Proof.
  intros Hm Hs Hocc.
  destruct (onSelection_multi_toggle st ts t Hm Hs) as (us1 & Hs1 & _ & H1).
  assert (Hm1 : Config.selection (configuration (onSelection st (ValidDate t))) = multi)
    by (by rewrite onSelection_configuration).
  destruct (onSelection_multi_toggle _ us1 t Hm1 Hs1) as (us & Hsel & Hsorted & H2).
  assert (Hp : us ≡ₚ ts).
  { destruct H1 as [[Hin Hp1]|[Hnin Hp1]], H2 as [[Hin2 Hp2]|[Hnin2 Hp2]].
    - exfalso. apply occurrences_not_elem_of in Hin2; [done|].
      rewrite <- (occurrences_Permutation t _ _ Hp1) in Hocc.
      unfold occurrences in *. rewrite count_occ_cons_eq in Hocc by done. lia.
    - by rewrite Hp2.
    - apply (Permutation_cons_inv (a:=t)). by rewrite Hp2.
    - exfalso. apply Hnin2. rewrite Hp1. left. }
  exists us. split_and!; [done..|].
  intros day. by rewrite Hp.
Qed.

(** The theorem at work on a selection of two days, the later one toggled. *)
Lemma toggle_twice_restores_witness :
  ∃ us, selection (onSelection
                     (onSelection
                        (initialStore (configured multi false)
                           (SelArray [ymd 2024 1 3; ymd 2024 1 1]) (ymd 2024 1 1) true)
                        (ValidDate 1704240000000))
                     (ValidDate 1704240000000))
          = SelArray (ValidDate <$> us)
        ∧ us ≡ₚ [1704067200000; 1704240000000]
        ∧ Sorted Z.le us
        ∧ ∀ day, day ∈ dayStart <$> us ↔ day ∈ dayStart <$> [1704067200000; 1704240000000].
Proof.
  apply (toggle_twice_restores
           (initialStore (configured multi false)
              (SelArray [ymd 2024 1 3; ymd 2024 1 1]) (ymd 2024 1 1) true)
           [1704067200000; 1704240000000] 1704240000000).
  - reflexivity.
  - reflexivity.
  - vm_compute. lia.
Defined.

(** C8, as the claim states it, fails for a selection the parser produced
    from an array that names a day twice: the two choices of that day take
    both copies out, and the day is no longer selected. *)
Lemma toggle_twice_loses_a_repeated_day :
  selection (initialStore (configured multi false)
               (SelArray [ymd 2024 1 1; ymd 2024 1 1]) (ymd 2024 1 1) true)
    = SelArray [ymd 2024 1 1; ymd 2024 1 1]
  ∧ selection (onSelection
                 (onSelection
                    (initialStore (configured multi false)
                       (SelArray [ymd 2024 1 1; ymd 2024 1 1]) (ymd 2024 1 1) true)
                    (ymd 2024 1 1))
                 (ymd 2024 1 1))
    = SelArray [].
Proof. split; reflexivity. Qed.

(** C3: the failing input.  In multi mode, with no value given to the
    provider, the selection is null and the first day choice throws a
    TypeError: the handler spreads the selection as if it were an array. *)
Theorem selectionHandler_multi_throws_without_selection
    (confirm hasClosePicker : bool) (today date : Date) :
  selection (initialStore (configured multi confirm) SelNull today hasClosePicker)
    = SelNull
  ∧ selectionHandler
      (initialStore (configured multi confirm) SelNull today hasClosePicker) date
    = Throws TypeError.
Proof. split; reflexivity. Qed.

(** ** Closing a range *)

Lemma orderedRange_comm (a b : Z) :
  orderedRange (ValidDate a) (ValidDate b) = orderedRange (ValidDate b) (ValidDate a).
Proof.
  unfold orderedRange, isBefore; simpl.
  destruct (Z.ltb_spec b a), (Z.ltb_spec a b); try reflexivity; try lia.
  by replace b with a by lia.
Qed.

(** The whole state after the second endpoint of an open range was chosen. *)
Lemma onSelection_closes (st : Store) (f d : Date) :
  Config.selection (configuration st) = range →
  selection st = SelRange (mkRange f None) →
  onSelection st d =
    {| configuration := configuration st;
       previousSelection :=
         if Config.confirmation (configuration st) then previousSelection st
         else SelRange (orderedRange f d);
       selection := SelRange (orderedRange f d);
       hoverRange := None;
       currentViewingDate := currentViewingDate st;
       closePicker := closePicker st;
       closeCalls :=
         if Config.confirmation (configuration st) then closeCalls st
         else if closePicker st then S (closeCalls st) else closeCalls st |}.
Proof.
  intros Hm Hs. unfold onSelection, selectionHandler, orderedRange.
  rewrite Hm, Hs. simpl.
  destruct (Config.confirmation (configuration st)); [reflexivity|].
  unfold saveValue. destruct (closePicker st); by destruct (isBefore d f).
Qed.

(** The whole state after a day was chosen with no range pending. *)
Lemma onSelection_opens (st : Store) (d : Date) :
  Config.selection (configuration st) = range →
  isPending (selection st) = false →
  onSelection st d =
    {| configuration := configuration st;
       previousSelection := previousSelection st;
       selection := SelRange (mkRange d None);
       hoverRange := Some (mkRange d (Some d));
       currentViewingDate := currentViewingDate st;
       closePicker := closePicker st;
       closeCalls := closeCalls st |}.
Proof.
  intros Hm Hs. unfold onSelection, selectionHandler. rewrite Hm.
  by destruct (selection st) as [| | |[f [t|]]|].
Qed.

(** C6.  In range mode, for every state with an open range that starts at
    the date [A] and every date [B] chosen next (dates given by their time
    values), the selection becomes the range from [B] to [A] when [B] is
    before [A], and from [A] to [B] otherwise.  The state reached does not
    depend on which of the two was chosen first: closing the range opened
    at [A] with [B] gives the state that closing the range opened at [B]
    with [A] gives, and from a state with no range pending, choosing [A]
    then [B] gives the state that choosing [B] then [A] gives (selection,
    committed selection, hover range and calls of [closePicker]). *)
Theorem range_closing_order_independent (st : Store) (a b : Z) :
  Config.selection (configuration st) = range →
  selection (onSelection (withOpenRange st (ValidDate a)) (ValidDate b))
    = SelRange (if isBefore (ValidDate b) (ValidDate a)
                then mkRange (ValidDate b) (Some (ValidDate a))
                else mkRange (ValidDate a) (Some (ValidDate b)))
  ∧ onSelection (withOpenRange st (ValidDate a)) (ValidDate b)
    = onSelection (withOpenRange st (ValidDate b)) (ValidDate a)
  ∧ (isPending (selection st) = false →
     onSelection (onSelection st (ValidDate a)) (ValidDate b)
     = onSelection (onSelection st (ValidDate b)) (ValidDate a)).
Proof.
  intros Hm. split_and!.
  - by rewrite (onSelection_closes _ (ValidDate a)).
  - rewrite (onSelection_closes _ (ValidDate a)), (onSelection_closes _ (ValidDate b)) by done.
    simpl. by rewrite orderedRange_comm.
  - intros Hidle.
    rewrite (onSelection_closes (onSelection st (ValidDate a)) (ValidDate a));
      [|by rewrite onSelection_configuration|by rewrite onSelection_opens].
    rewrite (onSelection_closes (onSelection st (ValidDate b)) (ValidDate b));
      [|by rewrite onSelection_configuration|by rewrite onSelection_opens].
    rewrite !onSelection_opens by done. simpl. by rewrite orderedRange_comm.
Qed.

(** The theorem at work: March 10 then March 5, and the other way round. *)
Lemma range_closing_order_independent_witness :
  selection (onSelection
               (withOpenRange
                  (initialStore (configured range false) SelNull (ymd 2024 3 1) true)
                  (ValidDate 1710028800000))
               (ValidDate 1709596800000))
    = SelRange (mkRange (ymd 2024 3 5) (Some (ymd 2024 3 10)))
  ∧ onSelection
      (onSelection (initialStore (configured range false) SelNull (ymd 2024 3 1) true)
         (ValidDate 1710028800000))
      (ValidDate 1709596800000)
    = onSelection
        (onSelection (initialStore (configured range false) SelNull (ymd 2024 3 1) true)
           (ValidDate 1709596800000))
        (ValidDate 1710028800000).
Proof.
  destruct (range_closing_order_independent
              (initialStore (configured range false) SelNull (ymd 2024 3 1) true)
              1710028800000 1709596800000) as (Hclose & _ & Hswap).
  - reflexivity.
  - split; [exact Hclose | apply Hswap; reflexivity].
Defined.

(** ** Commit and revert *)

Lemma applyUpdates_keepsPrevious (us : list Update) (st : Store) :
  keepsPrevious us = true →
  previousSelection (applyUpdates st us) = previousSelection st.
Proof.
  revert st. induction us as [|u us IH]; intros st; [done|].
  simpl. intros [Hu Hus]%andb_prop.
  unfold applyUpdates in *. simpl. rewrite (IH _ Hus). by destruct u.
Qed.

Section Transactions.

Variable addMonths : Date → Z → Date.

Lemma dispatch_tentative (st : Store) (ev : Event) :
  isTentative addMonths st ev = true →
  previousSelection (dispatch addMonths st ev) = previousSelection st.
Proof.
  unfold isTentative, dispatch. destruct (handle addMonths st ev); simpl; [|done].
  apply applyUpdates_keepsPrevious.
Qed.

Lemma run_tentative (evs : list Event) (st : Store) :
  allTentative addMonths st evs = true →
  previousSelection (run addMonths st evs) = previousSelection st.
Proof.
  revert st. induction evs as [|ev evs IH]; intros st; [done|].
  simpl. intros [Hev Hevs]%andb_prop.
  unfold run in *. simpl. rewrite (IH _ Hevs). by apply dispatch_tentative.
Qed.

(** C7.  After any sequence of calls that commit nothing (day choices that
    do not save, focus and blur, navigation), [revertValue] sets the
    selection to the [previousSelection] the sequence started from, which in
    a committed state is the selection it started from; and [revertValue],
    in any state, queues the one update of the selection and leaves the
    count of [closePicker] calls as it is. *)
Theorem revert_restores_previous_selection (st : Store) (evs : list Event) :
  allTentative addMonths st evs = true →
  selection (dispatch addMonths (run addMonths st evs) RevertValue)
    = previousSelection st
  ∧ (selection st = previousSelection st →
     selection (dispatch addMonths (run addMonths st evs) RevertValue)
       = selection st)
  ∧ ∀ s : Store,
      handle addMonths s RevertValue = Returns [setSelection (previousSelection s)]
      ∧ closeCalls (dispatch addMonths s RevertValue) = closeCalls s.
Proof.
  intros Hevs.
  assert (selection (dispatch addMonths (run addMonths st evs) RevertValue)
          = previousSelection st) as Hrev.
  { unfold dispatch. simpl. by apply run_tentative. }
  split_and!; [done| |done].
  intros Hc. by rewrite Hc.
Qed.

(** C10.  [revertValue] changes the selection and nothing else: the hover
    range, the previous selection, the configuration and the viewed date
    of the state after it are those of the state before. *)
Theorem revert_changes_selection_only (st : Store) :
  selection (dispatch addMonths st RevertValue) = previousSelection st
  ∧ hoverRange (dispatch addMonths st RevertValue) = hoverRange st
  ∧ previousSelection (dispatch addMonths st RevertValue) = previousSelection st
  ∧ configuration (dispatch addMonths st RevertValue) = configuration st
  ∧ currentViewingDate (dispatch addMonths st RevertValue) = currentViewingDate st.
Proof. by split_and!. Qed.

End Transactions.

(** The theorem at work in multi mode: two toggles, a month forward, a
    focus and a blur, then the revert. *)
Lemma revert_restores_previous_selection_witness :
  selection
    (dispatch addMonthsGregorian
       (run addMonthsGregorian
          (initialStore (configured multi false) (SelArray [ymd 2024 1 1])
             (ymd 2024 1 1) true)
          [OnSelection (ymd 2024 1 3); NextMonth; OnDayFocus (ymd 2024 2 5);
           OnSelection (ymd 2024 1 1); OnDayBlur (ymd 2024 2 5)])
       RevertValue)
  = SelArray [ymd 2024 1 1].
Proof.
  refine (proj1 (revert_restores_previous_selection addMonthsGregorian _ _ _)).
  reflexivity.
Defined.

(** ** The blocked flag *)

Lemma isEqual_sameTime (a b : Date) : isEqual a b = true ↔ sameTime a b.
Proof.
  unfold sameTime. destruct a as [x|], b as [y|]; simpl.
  - rewrite isEqual_valid. split; [intros ->; by exists y|].
    by intros (t & [= ->] & [= ->]).
  - split; [done|]. by intros (t & _ & [=]).
  - split; [done|]. by intros (t & [=] & _).
  - split; [done|]. by intros (t & [=] & _).
Qed.

Lemma blocked_true (st : Store) (d : Date) :
  blocked st (Some d) = Some true ↔
  ∃ bs b, Config.blockedDates (configuration st) = Some bs ∧ b ∈ bs ∧ sameTime b d.
Proof.
  unfold blocked. destruct (Config.blockedDates (configuration st)) as [bs|].
  - destruct (List.find _ bs) as [b|] eqn:Hfind.
    + apply find_some in Hfind as [Hin Heq].
      split; [intros _|done]. exists bs, b. split_and!; [done| |].
      * by apply list_elem_of_In.
      * by apply isEqual_sameTime.
    + split; [done|]. intros (bs' & b & [= <-] & Hin & Hsame).
      apply list_elem_of_In in Hin.
      apply (find_none _ _ Hfind) in Hin. simpl in Hin.
      apply isEqual_sameTime in Hsame. congruence.
  - split; [done|]. by intros (bs & b & [=] & _).
Qed.

(** C5, as the code has it.  The blocked flag of a date [d] is true exactly
    when [blockedDates] is configured and holds a date with the time value
    of [d]: the time of day counts.  When [d] and the blocked dates are all
    whole days (midnights), that is membership by calendar day. *)
Theorem blocked_iff_same_time_value (st : Store) (d : Date) :
  (blocked st (Some d) = Some true ↔
   ∃ bs b, Config.blockedDates (configuration st) = Some bs ∧ b ∈ bs ∧ sameTime b d)
  ∧ (toDay d = d →
     (∀ bs, Config.blockedDates (configuration st) = Some bs →
            Forall (λ b, toDay b = b) bs) →
     (blocked st (Some d) = Some true ↔
      ∃ bs b, Config.blockedDates (configuration st) = Some bs ∧ b ∈ bs ∧ sameDay b d)).
Proof.
  split; [apply blocked_true|].
  intros Hd Hbs. rewrite blocked_true.
  split; intros (bs & b & Hcfg & Hin & Hsame); exists bs, b; split_and!; try done.
  - unfold sameDay. rewrite Hd.
    rewrite (proj1 (Forall_forall _ _) (Hbs bs Hcfg) b Hin). done.
  - unfold sameDay in Hsame. rewrite Hd in Hsame.
    by rewrite (proj1 (Forall_forall _ _) (Hbs bs Hcfg) b Hin) in Hsame.
Qed.

(** C5, as the claim states it, fails: noon of a blocked day is on the
    calendar day of a blocked date and is not flagged. *)
Lemma blocked_misses_a_time_of_day :
  sameDay (ymd 2024 1 1) (ValidDate 1704110400000)
  ∧ blocked (initialStore (withBlockedDates [ymd 2024 1 1] defaultConfiguration)
               SelNull (ymd 2024 1 1) false)
            (Some (ValidDate 1704110400000))
    = Some false.
Proof. split; [by exists 1704067200000 | reflexivity]. Qed.

(** ** The formatted date *)

Section Formatting.

Variable format : Date → string → outcome string.

(** C4, as the code has it.  The formatter coerces a Date, an array and a
    from/to pair under each of the three modes: in single mode a pair is
    formatted as its [from] and an array as its first element; in multi
    mode a date is formatted alone and a pair as its [to] and its [from],
    in that order; in range mode a date is formatted as a range with no end
    and an array as the range of its first two elements.  "Invalid
    Selection" is what a value of none of the three shapes gives.  In a mode
    that is none of the three every non-null selection gives "Invalid
    Configuration"; a null selection gives the placeholder in every mode. *)
Theorem getFormattedDate_coerces (st : Store) (d : Date) (ds : list Date)
    (r : RangeSelection) :
  let tpl := template (configuration st) in
  getFormattedDate format (withSelection st SelNull)
    = Returns (Config.placeholder (configuration st))
  ∧ match Config.selection (configuration st) with
    | single =>
        getFormattedDate format (withSelection st (SelRange r)) = format (from r) tpl
        ∧ getFormattedDate format (withSelection st (SelArray ds))
          = format (dateAt ds 0) tpl
        ∧ getFormattedDate format (withSelection st SelOther)
          = Returns "Invalid Selection"
    | multi =>
        getFormattedDate format (withSelection st (SelDate d)) = format d tpl
        ∧ getFormattedDate format (withSelection st (SelRange r))
          = (a ← formatOrEmpty format tpl (to r);
             b ← format (from r) tpl;
             Returns (a +:+ ", " +:+ b))
        ∧ getFormattedDate format (withSelection st SelOther)
          = Returns "Invalid Selection"
    | range =>
        getFormattedDate format (withSelection st (SelDate d))
          = (a ← format d tpl; Returns (a +:+ " - "))
        ∧ getFormattedDate format (withSelection st (SelArray ds))
          = (a ← formatOrEmpty format tpl (ds !! 0%nat);
             b ← formatOrEmpty format tpl (ds !! 1%nat);
             Returns (a +:+ " - " +:+ b))
        ∧ getFormattedDate format (withSelection st SelOther)
          = Returns "Invalid Selection"
    | unknownVariant _ =>
        ∀ s, s ≠ SelNull →
             getFormattedDate format (withSelection st s)
             = Returns "Invalid Configuration"
    end.
Proof.
  split; [reflexivity|].
  unfold getFormattedDate, withSelection; simpl.
  destruct (Config.selection (configuration st)); simpl.
  - done.
  - split_and!; [|destruct (to r) as [t|]; simpl|done].
    + by destruct (format d _).
    + by destruct (format t _), (format (from r) _).
    + by destruct (format (from r) _).
  - split_and!; [| |done].
    + by destruct (format d _).
    + destruct (ds !! 0%nat) as [a|], (ds !! 1%nat) as [b|]; simpl;
        repeat match goal with |- context [format ?x ?t] => destruct (format x t) end;
        done.
  - by intros [].
Qed.

End Formatting.

(** C4, as the claim states it, fails.  A from/to pair held in single mode
    (saved, then restored by a revert) is formatted as its [from]; and in a
    mode the engine does not know, a null selection gives the placeholder. *)
Lemma getFormattedDate_formats_a_pair_in_single_mode :
  Config.selection
    (configuration
       (run addMonthsGregorian
          (initialStore (configured single true) SelNull (ymd 2024 1 1) false)
          [SaveValue (SelRange (mkRange (ymd 2024 1 3) (Some (ymd 2024 1 5))));
           RevertValue]))
    = single
  ∧ selection
      (run addMonthsGregorian
         (initialStore (configured single true) SelNull (ymd 2024 1 1) false)
         [SaveValue (SelRange (mkRange (ymd 2024 1 3) (Some (ymd 2024 1 5))));
          RevertValue])
    = SelRange (mkRange (ymd 2024 1 3) (Some (ymd 2024 1 5)))
  ∧ getFormattedDate formatGregorian
      (run addMonthsGregorian
         (initialStore (configured single true) SelNull (ymd 2024 1 1) false)
         [SaveValue (SelRange (mkRange (ymd 2024 1 3) (Some (ymd 2024 1 5))));
          RevertValue])
    = Returns "Jan 3"
  ∧ getFormattedDate formatGregorian
      (initialStore (configured (unknownVariant "week") false) SelNull
         (ymd 2024 1 1) false)
    = Returns "Select a Date...".
Proof. split_and!; reflexivity. Qed.

(** * Further properties of the engine *)

(** ** More on the parser *)

(** X1.  The parser returns a selection of the shape of the mode: an array
    in multi mode, a from/to pair in range mode, a date in every other
    mode; or null, which it returns exactly for a null value and for a
    value of no known shape. *)
Theorem parseSelection_shape (v : Selection) (m : SelectionVariant) :
  (parseSelection v m = SelNull ↔ v = SelNull ∨ v = SelOther)
  ∧ (parseSelection v m = SelNull
     ∨ match m with
       | multi => isMultiSelection (parseSelection v m) = true
       | range => isRangeSelection (parseSelection v m) = true
       | _ => isSingleSelection (parseSelection v m) = true
       end).
Proof.
  split.
  - destruct m, v; simpl;
      (split; [intros Hnull; first [done | by left | by right] | by intros [|]]).
  - destruct m, v; simpl; auto.
Qed.

(** X2.  Every date of a parsed selection is the start of its calendar day:
    the parser drops the time of day of every date it keeps. *)
Theorem parseSelection_whole_days (v : Selection) (m : SelectionVariant) :
  Forall (λ d, toDay d = d) (datesOf (parseSelection v m)).
Proof.
  assert (Hsort : ∀ l, Forall (λ d, toDay d = d) (sortByTime (toDay <$> l))).
  { intros l. rewrite sortByTime_Permutation. apply Forall_toDay_fmap. }
  destruct m, v as [|d|ds|[f [t|]]|]; cbn -[sortByTime toDay]; try done;
    try (repeat constructor; apply toDay_idem).
  - exact (Hsort [f; t]).
  - destruct (ds !! 1%nat); cbn -[toDay]; repeat constructor; apply toDay_idem.
Qed.

(** X3.  A selection parsed for single mode survives a stay in any other
    mode: parsed for the mode [m] and then for single mode again, it is
    what it was. *)
Theorem parseSelection_single_round_trip (v : Selection) (m : SelectionVariant) :
  parseSelection (parseSelection (parseSelection v single) m) single
  = parseSelection v single.
Proof.
  destruct m, v as [|d|ds|[f t]|]; cbn -[toDay]; by rewrite ?toDay_idem.
Qed.

(** X4.  A from/to pair that goes through multi mode comes back in order:
    parsed for multi mode and then for range mode, the pair of two dates of
    the years 100 to 9999, with the time values [f] and [t], is the range
    from the earlier calendar day to the later one, whichever came first. *)
Theorem parseSelection_range_through_multi (f t : Z) :
  plainYear f →
  plainYear t →
  parseSelection
    (parseSelection (SelRange (mkRange (ValidDate f) (Some (ValidDate t)))) multi)
    range
  = SelRange (mkRange (ValidDate (Z.min (dayStart f) (dayStart t)))
                      (Some (ValidDate (Z.max (dayStart f) (dayStart t))))).
Proof.
  intros _ _.
  simpl. rewrite sortsAfter_valid. case_bool_decide as Hlt; simpl.
  - rewrite !dayStart_idem. by rewrite Z.min_r, Z.max_l by lia.
  - rewrite !dayStart_idem. by rewrite Z.min_l, Z.max_r by lia.
Qed.

(** The theorem at work on a reversed pair: from 2024-01-03T12:00 to
    2024-01-01. *)
Lemma parseSelection_range_through_multi_witness :
  parseSelection
    (parseSelection
       (SelRange (mkRange (ValidDate 1704283200000) (Some (ValidDate 1704067200000))))
       multi)
    range
  = SelRange (mkRange (ymd 2024 1 1) (Some (ymd 2024 1 3))).
Proof.
  refine (parseSelection_range_through_multi 1704283200000 1704067200000 _ _);
    unfold plainYear, firstPlainTime, lastPlainTime; lia.
Defined.

(** ** The flags and the status of a day *)

(** X5.  A date is disabled exactly when its time value is below that of a
    valid [minDate] or above that of a valid [maxDate]: the bounds
    themselves are enabled, a bound that is absent or invalid disables
    nothing, and neither an Invalid Date nor an absent date is ever
    disabled. *)
Theorem disabled_iff_outside_bounds (st : Store) (t : Z) :
  (disabled st (Some (ValidDate t)) = true ↔
   (∃ lo, Config.minDate (configuration st) = Some (ValidDate lo) ∧ t < lo)
   ∨ (∃ hi, Config.maxDate (configuration st) = Some (ValidDate hi) ∧ hi < t))
  ∧ disabled st (Some InvalidDate) = false
  ∧ disabled st None = false.
Proof.
  split_and!.
  - unfold disabled. rewrite orb_true_iff.
    assert (match Config.minDate (configuration st) with
            | Some m => isBefore (ValidDate t) m
            | None => false
            end = true
            ↔ ∃ lo, Config.minDate (configuration st) = Some (ValidDate lo) ∧ t < lo)
      as ->.
    { destruct (Config.minDate (configuration st)) as [[lo|]|];
        unfold isBefore; simpl.
      - rewrite Z.ltb_lt.
        split; [intros Hlo; by exists lo | by intros (x & [= <-] & Hx)].
      - split; [done | by intros (x & [=] & _)].
      - split; [done | by intros (x & [=] & _)]. }
    assert (match Config.maxDate (configuration st) with
            | Some m => isAfter (ValidDate t) m
            | None => false
            end = true
            ↔ ∃ hi, Config.maxDate (configuration st) = Some (ValidDate hi) ∧ hi < t)
      as ->.
    { destruct (Config.maxDate (configuration st)) as [[hi|]|];
        unfold isAfter; simpl.
      - rewrite Z.ltb_lt.
        split; [intros Hhi; by exists hi | by intros (x & [= <-] & Hx)].
      - split; [done | by intros (x & [=] & _)].
      - split; [done | by intros (x & [=] & _)]. }
    done.
  - unfold disabled, isBefore, isAfter; simpl.
    by destruct (Config.minDate (configuration st)) as [[lo|]|],
                (Config.maxDate (configuration st)) as [[hi|]|].
  - done.
Qed.

Lemma rangeStatus_valid (t lo hi : Z) :
  rangeStatus (ValidDate t) (mkRange (ValidDate lo) (Some (ValidDate hi)))
  = if bool_decide (t = lo) then selStart
    else if bool_decide (t = hi) then selEnd
    else if bool_decide (lo < t < hi) then selMiddle
    else selBool false.
Proof.
  unfold rangeStatus, isEqual, isAfter, isBefore; simpl.
  destruct (Z.eqb_spec t lo), (Z.eqb_spec t hi),
           (Z.ltb_spec lo t), (Z.ltb_spec t hi);
    repeat case_bool_decide; simpl; try reflexivity; lia.
Qed.

(** X6.  In range mode, once the range opened at the day [a] is closed with
    the day [b], the days shown as selected are those from the earlier to
    the later of the two, whatever the click order: the earlier one is the
    start, the later one the end (when they differ), and the days strictly
    between them are the middle. *)
Theorem selected_between_chosen_days (st : Store) (a b t : Z) :
  Config.selection (configuration st) = range →
  ∃ s, selectedEffect (onSelection (withOpenRange st (ValidDate a)) (ValidDate b))
         (Some (ValidDate t)) = Some s
       ∧ (s ≠ selBool false ↔ Z.min a b ≤ t ≤ Z.max a b)
       ∧ (s = selStart ↔ t = Z.min a b)
       ∧ (s = selEnd ↔ t = Z.max a b ∧ a ≠ b)
       ∧ (s = selMiddle ↔ Z.min a b < t < Z.max a b).
Proof.
  intros Hm. rewrite (onSelection_closes _ (ValidDate a)) by done.
  unfold selectedEffect, orderedRange, isBefore; simpl.
  destruct (Z.ltb_spec b a); eexists; (split; [reflexivity|]);
    rewrite rangeStatus_valid; repeat case_bool_decide;
    split_and!; split; try done; try lia; intros; exfalso; lia.
Qed.

(** The theorem at work: March 10 then March 5, seen from March 7. *)
Lemma selected_between_chosen_days_witness :
  selectedEffect
    (onSelection
       (withOpenRange (initialStore (configured range false) SelNull (ymd 2024 3 1) true)
          (ValidDate 1710028800000))
       (ValidDate 1709596800000))
    (Some (ValidDate 1709769600000))
  = Some selMiddle.
Proof.
  destruct (selected_between_chosen_days
              (initialStore (configured range false) SelNull (ymd 2024 3 1) true)
              1710028800000 1709596800000 1709769600000 eq_refl)
    as (s & Hs & _ & _ & _ & Hmid).
  rewrite Hs. f_equal. apply Hmid. lia.
Defined.

(** X7.  While a range is pending and a hover range is shown, the focus on
    a day previews the choice of that day: the hover range becomes the very
    range that choosing the day would select, and the focus changes neither
    the selection nor the committed selection, and does not call
    [closePicker]. *)
Theorem focus_previews_the_choice (st : Store) (f d : Date) (h : RangeSelection) :
  Config.selection (configuration st) = range →
  selection st = SelRange (mkRange f None) →
  hoverRange st = Some h →
  ∃ r, hoverRange (focused st d) = Some r
       ∧ selection (onSelection st d) = SelRange r
       ∧ selection (focused st d) = selection st
       ∧ previousSelection (focused st d) = previousSelection st
       ∧ closeCalls (focused st d) = closeCalls st.
Proof.
  intros Hm Hs Hh. exists (orderedRange f d).
  rewrite (onSelection_closes st f d Hm Hs).
  unfold focused, focusHnadler, orderedRange. rewrite Hm, Hs, Hh. simpl.
  by destruct (isBefore d f).
Qed.

(** The theorem at work: March 10 is chosen, then March 5 gets the focus. *)
Lemma focus_previews_the_choice_witness :
  hoverRange
    (focused
       (onSelection (initialStore (configured range false) SelNull (ymd 2024 3 1) true)
          (ymd 2024 3 10))
       (ymd 2024 3 5))
  = Some (mkRange (ymd 2024 3 5) (Some (ymd 2024 3 10))).
Proof.
  destruct (focus_previews_the_choice
              (onSelection
                 (initialStore (configured range false) SelNull (ymd 2024 3 1) true)
                 (ymd 2024 3 10))
              (ymd 2024 3 10) (ymd 2024 3 5)
              (mkRange (ymd 2024 3 10) (Some (ymd 2024 3 10)))
              eq_refl eq_refl eq_refl)
    as (r & Hr & Hsel & _).
  rewrite Hr. f_equal. by injection Hsel.
Defined.

(** X8.  In range mode, a [revertValue] that cancels a range just opened
    restores the selection and leaves the hover range of the cancelled
    day: a hover range stays with no range pending, and as the hover range
    goes first, the cancelled day is still shown as the start of a range. *)
Theorem revert_leaves_a_stale_preview (st : Store) (t : Z) :
  Config.selection (configuration st) = range →
  isPending (selection st) = false →
  isPending (previousSelection st) = false →
  selection (reverted (onSelection st (ValidDate t))) = previousSelection st
  ∧ hoverRange (reverted (onSelection st (ValidDate t)))
    = Some (mkRange (ValidDate t) (Some (ValidDate t)))
  ∧ hoverOnlyWhilePending (reverted (onSelection st (ValidDate t))) = false
  ∧ selectedEffect (reverted (onSelection st (ValidDate t))) (Some (ValidDate t))
    = Some selStart.
Proof.
  intros Hm Hs Hp. rewrite onSelection_opens by done.
  unfold reverted, hoverOnlyWhilePending, selectedEffect, rangeStatus, isEqual; simpl.
  rewrite Hp, Z.eqb_refl. done.
Qed.

(** The theorem at work on a provider without a value. *)
Lemma revert_leaves_a_stale_preview_witness :
  hoverRange
    (reverted
       (onSelection (initialStore (configured range true) SelNull (ymd 2024 3 1) true)
          (ValidDate 1710028800000)))
  = Some (mkRange (ymd 2024 3 10) (Some (ymd 2024 3 10))).
Proof.
  refine (proj1 (proj2 (revert_leaves_a_stale_preview
                          (initialStore (configured range true) SelNull (ymd 2024 3 1) true)
                          1710028800000 _ _ _))); reflexivity.
Defined.

(** ** Day choices, commits and reverts *)

Lemma Sorted_lt_NoDup (l : list Z) : Sorted Z.lt l → NoDup l.
Proof.
  intros Hs. apply Sorted_StronglySorted in Hs; [|intros x y z; lia].
  induction Hs as [|x l _ IH Hx]; constructor; [|done].
  intros Hin. rewrite Forall_forall in Hx. specialize (Hx x Hin). lia.
Qed.

Lemma Sorted_le_NoDup_lt (l : list Z) : Sorted Z.le l → NoDup l → Sorted Z.lt l.
Proof.
  induction 1 as [|x l Hl IH Hx]; intros Hnd; [constructor|].
  apply NoDup_cons in Hnd as [Hnin Hnd].
  constructor; [by apply IH|].
  destruct Hx as [|y l' Hxy]; constructor.
  assert (x ≠ y) by (intros ->; apply Hnin; left). lia.
Qed.

(** X9.  In multi mode, a selection of dates in strictly ascending order of
    their time values stays one under every sequence of day choices: the
    selection remains an array, sorted and with no date twice. *)
Theorem multi_choices_keep_strict_order (cs ts : list Z) (st : Store) :
  Config.selection (configuration st) = multi →
  selection st = SelArray (ValidDate <$> ts) →
  Sorted Z.lt ts →
  ∃ us, selection (foldl onSelection st (ValidDate <$> cs)) = SelArray (ValidDate <$> us)
        ∧ Sorted Z.lt us.
Proof.
  revert ts st. induction cs as [|c cs IH]; intros ts st Hm Hs Hts.
  - by exists ts.
  - destruct (onSelection_multi_toggle st ts c Hm Hs) as (us & Hus & Hsorted & Hcase).
    simpl. apply (IH us); [by rewrite onSelection_configuration | done |].
    apply Sorted_le_NoDup_lt; [done|].
    apply Sorted_lt_NoDup in Hts.
    destruct Hcase as [[_ Hp]|[Hnin Hp]].
    + rewrite <- Hp in Hts. by apply NoDup_cons in Hts as [_ ?].
    + rewrite Hp. by constructor.
Qed.

(** The theorem at work: two days are parsed, a third is put in and the
    first is taken out. *)
Lemma multi_choices_keep_strict_order_witness :
  ∃ us, selection
          (foldl onSelection
             (initialStore (configured multi false)
                (SelArray [ymd 2024 1 3; ymd 2024 1 1]) (ymd 2024 1 1) true)
             (ValidDate <$> [1704153600000; 1704067200000]))
        = SelArray (ValidDate <$> us)
        ∧ Sorted Z.lt us.
Proof.
  apply (multi_choices_keep_strict_order
           [1704153600000; 1704067200000] [1704067200000; 1704240000000]).
  - reflexivity.
  - reflexivity.
  - repeat constructor.
Defined.

(** X10.  In multi mode a day choice never commits, whatever
    [configuration.confirmation] says and whatever the selection is: the
    committed selection, the count of [closePicker] calls, the hover range
    and the viewed date stay as they are. *)
Theorem multi_choice_never_commits (st : Store) (d : Date) :
  Config.selection (configuration st) = multi →
  previousSelection (onSelection st d) = previousSelection st
  ∧ closeCalls (onSelection st d) = closeCalls st
  ∧ hoverRange (onSelection st d) = hoverRange st
  ∧ currentViewingDate (onSelection st d) = currentViewingDate st.
Proof.
  intros Hm. unfold onSelection, selectionHandler. rewrite Hm.
  destruct (selection st) as [| |ds| |]; simpl; try done.
  by destruct (findIndex _ ds).
Qed.

(** The theorem at work without confirmation. *)
Lemma multi_choice_never_commits_witness :
  previousSelection
    (onSelection
       (initialStore (configured multi false) (SelArray [ymd 2024 1 1])
          (ymd 2024 1 1) true)
       (ymd 2024 1 3))
  = SelArray [ymd 2024 1 1].
Proof.
  refine (proj1 (multi_choice_never_commits
                   (initialStore (configured multi false) (SelArray [ymd 2024 1 1])
                      (ymd 2024 1 1) true)
                   (ymd 2024 1 3) _)).
  reflexivity.
Defined.

(** X11.  In single mode a day choice makes the date the selection, as it
    was given (the time of day is kept).  Without confirmation it is
    committed at once: it is the committed selection too, [closePicker] is
    called once when it is there, and a revert after it changes nothing.
    With confirmation the committed selection and the count of calls stay,
    and a revert brings the committed selection back. *)
Theorem single_choice_commits (st : Store) (d : Date) :
  Config.selection (configuration st) = single →
  selection (onSelection st d) = SelDate d
  ∧ (Config.confirmation (configuration st) = false →
     previousSelection (onSelection st d) = SelDate d
     ∧ closeCalls (onSelection st d)
       = (if closePicker st then S (closeCalls st) else closeCalls st)
     ∧ reverted (onSelection st d) = onSelection st d)
  ∧ (Config.confirmation (configuration st) = true →
     previousSelection (onSelection st d) = previousSelection st
     ∧ closeCalls (onSelection st d) = closeCalls st
     ∧ selection (reverted (onSelection st d)) = previousSelection st).
Proof.
  intros Hm. unfold onSelection, selectionHandler, reverted, saveValue.
  rewrite Hm. split_and!.
  - by destruct (Config.confirmation _), (closePicker st).
  - intros ->. by destruct (closePicker st).
  - by intros ->.
Qed.

(** The theorem at work on a date with a time of day. *)
Lemma single_choice_commits_witness :
  selection
    (onSelection (initialStore (configured single false) SelNull (ymd 2024 1 1) true)
       (ValidDate 1704110400000))
  = SelDate (ValidDate 1704110400000).
Proof.
  refine (proj1 (single_choice_commits
                   (initialStore (configured single false) SelNull (ymd 2024 1 1) true)
                   (ValidDate 1704110400000) _)).
  reflexivity.
Defined.

(** X12.  [saveValue] commits without touching the selection: the committed
    selection becomes the value given, or the selection when none is given,
    and [closePicker] is called once when it is there.  A revert after it
    makes that committed value the selection, so that after a [saveValue]
    with no value a revert leaves the selection as it is.  Reverting twice
    is reverting once. *)
Theorem save_then_revert (st : Store) (s : Selection) :
  selection (saved st s) = selection st
  ∧ previousSelection (saved st s) = orElse s (selection st)
  ∧ closeCalls (saved st s)
    = (if closePicker st then S (closeCalls st) else closeCalls st)
  ∧ selection (reverted (saved st s)) = orElse s (selection st)
  ∧ selection (reverted (saved st SelNull)) = selection st
  ∧ reverted (reverted st) = reverted st.
Proof.
  unfold saved, reverted, saveValue. by destruct (closePicker st).
Qed.

(** ** Sequences of calls *)

Section Sequences.

Variable addMonths : Date → Z → Date.

Lemma dispatch_configuration (st : Store) (ev : Event) :
  configuration (dispatch addMonths st ev) = configuration st.
Proof. apply after_configuration. Qed.

Lemma dispatch_hoverOnlyWhilePending (st : Store) (ev : Event) :
  Config.selection (configuration st) = range →
  hoverOnlyWhilePending st = true →
  notRevert ev = true →
  hoverOnlyWhilePending (dispatch addMonths st ev) = true.
Proof.
  intros Hm Hinv Hev. destruct ev as [d|d|d|d| | |s|]; try done.
  - (* a day choice closes the range or opens one *)
    change (dispatch addMonths st (OnSelection d)) with (onSelection st d).
    destruct (isPending (selection st)) eqn:Hp.
    + destruct (selection st) as [| | |[f [t|]]|] eqn:Hs; try done.
      by rewrite (onSelection_closes st f d Hm Hs).
    + by rewrite onSelection_opens.
  - (* the focus moves the hover range of a pending range *)
    unfold dispatch, handle, after, focusHnadler, hoverOnlyWhilePending in *.
    rewrite Hm.
    destruct (selection st) as [| | |r|] eqn:Hs, (hoverRange st) eqn:Hh;
      simpl; rewrite ?Hs, ?Hh; done.
  - (* saveValue *)
    unfold dispatch, handle, after, saveValue, hoverOnlyWhilePending in *.
    by destruct (closePicker st).
Qed.

(** X13.  In range mode a hover range is there only while a range awaits
    its second endpoint, and every sequence of calls without a
    [revertValue] (day choices, focus, blur, navigation, [saveValue]) keeps
    it so. *)
Theorem hover_only_while_pending (evs : list Event) (st : Store) :
  Config.selection (configuration st) = range →
  hoverOnlyWhilePending st = true →
  forallb notRevert evs = true →
  hoverOnlyWhilePending (run addMonths st evs) = true.
Proof.
  revert st. induction evs as [|ev evs IH]; intros st Hm Hinv Hevs; [done|].
  simpl in Hevs. apply andb_prop in Hevs as [Hev Hevs].
  unfold run in *. simpl. apply IH; [|by apply dispatch_hoverOnlyWhilePending|done].
  by rewrite dispatch_configuration.
Qed.

(** X14.  The calls that commit are [saveValue] and the day choices that
    complete a selection without confirmation: in single mode every choice,
    in range mode the choice that closes a pending range.  Every other call
    is tentative: a day choice in multi mode or under confirmation, the
    choice that opens a range, the focus, the blur, the navigation and
    [revertValue]. *)
Theorem tentative_calls (st : Store) (ev : Event) :
  isTentative addMonths st ev = true ↔
  match ev with
  | SaveValue _ => False
  | OnSelection _ =>
      Config.selection (configuration st) = multi
      ∨ Config.confirmation (configuration st) = true
      ∨ (Config.selection (configuration st) = range
         ∧ isPending (selection st) = false)
  | _ => True
  end.
Proof.
  unfold isTentative. destruct ev as [d|d|d|d| | |s|]; simpl; try done.
  - unfold selectionHandler.
    destruct (Config.selection (configuration st)) eqn:Hm.
    + destruct (Config.confirmation (configuration st)); simpl;
        split; auto; intros [|[|[]]]; done.
    + split; [auto|intros _].
      destruct (selection st) as [| |ds| |]; simpl; try done.
      by destruct (findIndex _ ds).
    + destruct (selection st) as [| | |[f [t|]]|]; simpl;
        try (split; [intros _; right; right; done | done]).
      destruct (Config.confirmation (configuration st)); simpl.
      * split; auto.
      * split; [done|]. intros [|[|[]]]; done.
    + destruct (Config.confirmation (configuration st)); simpl;
        split; auto; intros [|[|[]]]; done.
  - unfold focusHnadler.
    by destruct (selection st), (Config.selection (configuration st)), (hoverRange st).
Qed.

End Sequences.

(** The theorem at work on the scenario of the specification. *)
Lemma hover_only_while_pending_witness :
  hoverOnlyWhilePending
    (run addMonthsGregorian
       (initialStore (configured range false) SelNull (ymd 2024 3 1) true)
       [OnSelection (ymd 2024 3 10); OnDayFocus (ymd 2024 3 15); NextMonth;
        OnSelection (ymd 2024 3 5); OnDayFocus (ymd 2024 3 7); SaveValue SelNull])
  = true.
Proof.
  apply (hover_only_while_pending addMonthsGregorian
           [OnSelection (ymd 2024 3 10); OnDayFocus (ymd 2024 3 15); NextMonth;
            OnSelection (ymd 2024 3 5); OnDayFocus (ymd 2024 3 7); SaveValue SelNull]);
    reflexivity.
Defined.

(** ** Rendering *)

Section Rendering.

Variable format : Date → string → outcome string.

(** X15.  The empty array as the value of the provider.  In multi mode the
    selection is the empty array and the formatted date is the empty
    string, not the placeholder.  In single and in range mode the parser
    makes an Invalid Date of the missing first element, and the formatted
    date throws where [format] throws on an Invalid Date, as the one of
    date-fns does. *)
Theorem empty_array_value (cfg : DatePickerConfiguration) (today : Date)
    (hasClosePicker : bool) :
  (∀ tpl, format InvalidDate tpl = Throws RangeError) →
  match Config.selection cfg with
  | multi =>
      selection (initialStore cfg (SelArray []) today hasClosePicker) = SelArray []
      ∧ getFormattedDate format (initialStore cfg (SelArray []) today hasClosePicker)
        = Returns ""
  | unknownVariant _ =>
      getFormattedDate format (initialStore cfg (SelArray []) today hasClosePicker)
      = Returns "Invalid Configuration"
  | _ =>
      getFormattedDate format (initialStore cfg (SelArray []) today hasClosePicker)
      = Throws RangeError
  end.
Proof.
  intros Hinvalid. unfold getFormattedDate, initialStore; simpl.
  destruct (Config.selection cfg); simpl; rewrite ?Hinvalid; done.
Qed.

End Rendering.

(** The theorem at work in range mode with the Gregorian [format]. *)
Lemma empty_array_value_witness :
  getFormattedDate formatGregorian
    (initialStore (configured range false) (SelArray []) (ymd 2024 1 1) true)
  = Throws RangeError.
Proof.
  apply (empty_array_value formatGregorian (configured range false)).
  intros tpl. reflexivity.
Defined.

(** ** The status of a day over time *)

Lemma find_valid (t : Z) (us : list Z) :
  match List.find (λ d, isEqual d (ValidDate t)) (ValidDate <$> us) with
  | Some _ => true
  | None => false
  end = bool_decide (t ∈ us).
Proof.
  induction us as [|u us IH]; [done|].
  change (List.find (λ d, isEqual d (ValidDate t)) (ValidDate <$> u :: us))
    with (if isEqual (ValidDate u) (ValidDate t) then Some (ValidDate u)
          else List.find (λ d, isEqual d (ValidDate t)) (ValidDate <$> us)).
  destruct (isEqual (ValidDate u) (ValidDate t)) eqn:Heq.
  - apply isEqual_valid in Heq as ->. symmetry. apply bool_decide_eq_true. left.
  - rewrite IH. apply bool_decide_ext. rewrite elem_of_cons.
    split; [auto|]. intros [->|]; [|done].
    by rewrite (proj2 (isEqual_valid u u)) in Heq.
Qed.

(** X16.  In multi mode, with no hover range, a day is shown as selected
    exactly when the selection holds its date, and for a date that the
    selection holds at most once every choice of the day flips what is
    shown. *)
Theorem multi_status_follows_toggle (st : Store) (ts : list Z) (t : Z) :
  Config.selection (configuration st) = multi →
  selection st = SelArray (ValidDate <$> ts) →
  hoverRange st = None →
  (occurrences t ts ≤ 1)%nat →
  selectedEffect st (Some (ValidDate t)) = Some (selBool (bool_decide (t ∈ ts)))
  ∧ selectedEffect (onSelection st (ValidDate t)) (Some (ValidDate t))
    = Some (selBool (negb (bool_decide (t ∈ ts)))).
Proof.
  intros Hm Hs Hh Hocc. split.
  - unfold selectedEffect. by rewrite Hh, Hs, find_valid.
  - destruct (onSelection_multi_toggle st ts t Hm Hs) as (us & Hus & _ & Hcase).
    assert (hoverRange (onSelection st (ValidDate t)) = None) as Hh'.
    { unfold onSelection, selectionHandler. rewrite Hm, Hs. simpl.
      by destruct (findIndex _ _). }
    unfold selectedEffect. rewrite Hh', Hus, find_valid. do 2 f_equal.
    destruct Hcase as [[Hin Hp]|[Hnin Hp]].
    + rewrite (bool_decide_eq_true_2 _ Hin). apply bool_decide_eq_false.
      apply occurrences_not_elem_of.
      rewrite <- (occurrences_Permutation t _ _ Hp) in Hocc.
      unfold occurrences in *. rewrite count_occ_cons_eq in Hocc by done. lia.
    + rewrite (bool_decide_eq_false_2 _ Hnin). apply bool_decide_eq_true.
      rewrite Hp. left.
Qed.

(** The theorem at work: a day of the selection is chosen again. *)
Lemma multi_status_follows_toggle_witness :
  selectedEffect
    (onSelection
       (initialStore (configured multi false)
          (SelArray [ymd 2024 1 3; ymd 2024 1 1]) (ymd 2024 1 1) true)
       (ValidDate 1704240000000))
    (Some (ValidDate 1704240000000))
  = Some (selBool false).
Proof.
  refine (proj2 (multi_status_follows_toggle
                   (initialStore (configured multi false)
                      (SelArray [ymd 2024 1 3; ymd 2024 1 1]) (ymd 2024 1 1) true)
                   [1704067200000; 1704240000000] 1704240000000 _ _ _ _)).
  - reflexivity.
  - reflexivity.
  - reflexivity.
  - vm_compute. lia.
Defined.

(** X17.  The effect that sets the status of a day makes no call when there
    is neither a hover range nor a selection, so the status is never reset
    by a selection that goes away: in single mode under confirmation, with
    nothing committed, a day that is chosen is shown as selected, and after
    the revert that empties the selection its status is whatever it was
    before the revert. *)
Theorem selected_stays_after_revert_to_null (st : Store) (t : Z) :
  Config.selection (configuration st) = single →
  Config.confirmation (configuration st) = true →
  previousSelection st = SelNull →
  hoverRange st = None →
  selected (selBool false) (onSelection st (ValidDate t)) (Some (ValidDate t))
    = selBool true
  ∧ selection (reverted (onSelection st (ValidDate t))) = SelNull
  ∧ ∀ previous,
      selected previous (reverted (onSelection st (ValidDate t))) (Some (ValidDate t))
      = previous.
Proof.
  intros Hm Hc Hp Hh.
  unfold selected, selectedEffect, onSelection, selectionHandler, reverted.
  rewrite Hm, Hc. simpl. rewrite Hh, Hp. simpl.
  by rewrite (proj2 (isEqual_valid t t)).
Qed.

(** The theorem at work on a provider without a value. *)
Lemma selected_stays_after_revert_to_null_witness :
  selected (selBool true)
    (reverted
       (onSelection (initialStore (configured single true) SelNull (ymd 2024 1 1) true)
          (ValidDate 1704240000000)))
    (Some (ValidDate 1704240000000))
  = selBool true.
Proof.
  refine (proj2 (proj2 (selected_stays_after_revert_to_null
                          (initialStore (configured single true) SelNull (ymd 2024 1 1) true)
                          1704240000000 _ _ _ _)) (selBool true)); reflexivity.
Defined.

(** ** More on rendering and on the flags *)

Section RenderingReturns.

Variable format : Date → string → outcome string.

Lemma mapM_returns {A : Type} (f : A → outcome string) (l : list A) :
  (∀ x, x ∈ l → ∃ s, f x = Returns s) → ∃ ss, mapM f l = Returns ss.
Proof.
  induction l as [|x l IH]; intros Hl; [by exists []|].
  destruct (Hl x) as [y Hy]; [left|].
  destruct IH as [ys Hys]; [intros z Hz; apply Hl; by right|].
  exists (y :: ys). simpl. by rewrite Hy, Hys.
Qed.

(** X23.  The formatted date is a string, and no exception, whenever
    [format] returns for every date of the selection, for every mode and
    every shape of the selection but one: the empty array in single mode,
    whose missing first element is handed to [format]. *)
Theorem getFormattedDate_returns (st : Store) :
  (∀ d, d ∈ datesOf (selection st) →
        ∃ s, format d (template (configuration st)) = Returns s) →
  ¬ (Config.selection (configuration st) = single ∧ selection st = SelArray []) →
  ∃ s, getFormattedDate format st = Returns s.
Proof.
  intros Hdates Hempty. unfold getFormattedDate.
  set (tpl := template (configuration st)) in *.
  assert (∀ o : option Date, (∀ d, o = Some d → d ∈ datesOf (selection st)) →
          ∃ s, formatOrEmpty format tpl o = Returns s) as Hopt.
  { intros [d|] Hd; simpl; [apply Hdates, Hd; done | by eexists]. }
  destruct (selection st) as [|d|ds|[f t]|] eqn:Hs; [by eexists| | | |].
  - (* a date *)
    destruct (Hdates d) as [s Hd]; [left|].
    destruct (Config.selection (configuration st)); simpl; rewrite ?Hd; by eexists.
  - (* an array *)
    destruct (Config.selection (configuration st)) eqn:Hm.
    + destruct ds as [|d ds]; [by destruct Hempty|].
      apply Hdates. left.
    + destruct (3 <? length ds)%nat; [by eexists|].
      destruct (mapM_returns (λ d, format d tpl) ds) as [ss Hss]; [by auto|].
      rewrite Hss. by eexists.
    + destruct (Hopt (ds !! 0%nat)) as [a Ha];
        [intros d Hd; by apply list_elem_of_lookup_2 in Hd|].
      destruct (Hopt (ds !! 1%nat)) as [b Hb];
        [intros d Hd; by apply list_elem_of_lookup_2 in Hd|].
      simpl. rewrite Ha, Hb. by eexists.
    + by eexists.
  - (* a from/to pair *)
    destruct (Hdates f) as [a Ha]; [left|].
    destruct (Hopt t) as [b Hb];
      [intros d ->; simpl; right; left|].
    destruct (Config.selection (configuration st)); simpl;
      rewrite ?Ha, ?Hb; simpl; rewrite ?Ha; by eexists.
  - (* a value of no known shape *)
    destruct (Config.selection (configuration st)); by eexists.
Qed.

End RenderingReturns.

(** The theorem at work on a pending range with the Gregorian [format]. *)
Lemma getFormattedDate_returns_witness :
  ∃ s, getFormattedDate formatGregorian
         (onSelection (initialStore (configured range false) SelNull (ymd 2024 3 1) true)
            (ymd 2024 3 10))
       = Returns s.
Proof.
  apply (getFormattedDate_returns formatGregorian).
  - intros d Hd. apply list_elem_of_singleton in Hd as ->. by eexists.
  - intros [Hm _]. discriminate Hm.
Defined.

(** X24.  The blocked flag is [undefined] exactly when no date is asked
    about or no [blockedDates] are configured, a boolean otherwise; with an
    empty list it is [false]; and an Invalid Date is never blocked, not
    even by an Invalid Date among the blocked dates. *)
Theorem blocked_edges (st : Store) (date : option Date) :
  (blocked st date = None ↔
   date = None ∨ Config.blockedDates (configuration st) = None)
  ∧ (Config.blockedDates (configuration st) = Some [] →
     ∀ d, blocked st (Some d) = Some false)
  ∧ blocked st (Some InvalidDate) ≠ Some true.
Proof.
  unfold blocked. split_and!.
  - destruct date, (Config.blockedDates (configuration st)); split; intros H;
      first [done | by left | by right | by destruct H].
  - by intros ->.
  - destruct (Config.blockedDates (configuration st)) as [bs|]; [|done].
    assert (List.find (λ b, isEqual b InvalidDate) bs = None) as ->; [|done].
    induction bs as [|[t|] bs IH]; simpl; done.
Qed.

Section Navigation.

Variable addMonths : Date → Z → Date.

(** X25.  Navigation and blur change nothing but the viewed date: after
    any sequence of [goToMonth], [nextMonth], [previousMonth] and blur
    calls the selection, the committed selection, the hover range, the
    configuration and the count of [closePicker] calls are what they were,
    and after a [goToMonth] the viewed date is the start of a day. *)
Theorem navigation_changes_the_viewed_date_only (evs : list Event) (st : Store) :
  forallb isNavigation evs = true →
  selection (run addMonths st evs) = selection st
  ∧ previousSelection (run addMonths st evs) = previousSelection st
  ∧ hoverRange (run addMonths st evs) = hoverRange st
  ∧ configuration (run addMonths st evs) = configuration st
  ∧ closeCalls (run addMonths st evs) = closeCalls st
  ∧ ∀ d, toDay (currentViewingDate (run addMonths st (evs ++ [GoToMonth d])))
         = currentViewingDate (run addMonths st (evs ++ [GoToMonth d])).
Proof.
  intros Hevs. split_and!.
  1-5: revert st; induction evs as [|ev evs IH]; intros st; [done|];
       simpl in Hevs; apply andb_prop in Hevs as [Hev Hevs];
       unfold run in *; simpl; rewrite (IH Hevs); by destruct ev.
  intros d. unfold run. rewrite foldl_app. simpl. apply toDay_idem.
Qed.

End Navigation.

(** The theorem at work with the Gregorian [addMonths]. *)
Lemma navigation_changes_the_viewed_date_only_witness :
  selection
    (run addMonthsGregorian
       (initialStore (configured multi false) (SelArray [ymd 2024 1 1])
          (ymd 2024 1 31) true)
       [NextMonth; NextMonth; PreviousMonth; OnDayBlur (ymd 2024 1 1);
        GoToMonth (ymd 2024 6 15)])
  = SelArray [ymd 2024 1 1].
Proof.
  refine (proj1 (navigation_changes_the_viewed_date_only addMonthsGregorian
                   [NextMonth; NextMonth; PreviousMonth; OnDayBlur (ymd 2024 1 1);
                    GoToMonth (ymd 2024 6 15)]
                   (initialStore (configured multi false) (SelArray [ymd 2024 1 1])
                      (ymd 2024 1 31) true) _)).
  reflexivity.
Defined.

(** * Properties of the inner visual of the text input *)

(** X18.  What the inner visual shows.  Truthy children are visible exactly
    when the loading indicator is not taking their place; a falsy number (0
    or NaN) is printed whenever a loading indicator is expected and either
    shown or on the trailing side; the spinner is visible exactly when a
    loading indicator is expected and shown.  Truthy children and the
    spinner are never visible together: the two are visible together
    exactly when the children are a falsy number and the indicator is
    expected and shown. *)
Theorem inner_visual_shows {Node : Type} (children : Children Node)
    (hasLoadingIndicator : bool) (showLoadingIndicator : option bool)
    (visualPosition : VisualPosition) :
  showsChildren (TextInputInnerVisualSlot children hasLoadingIndicator
                   showLoadingIndicator visualPosition)
    = (isTruthy children
       && negb (hasLoadingIndicator && default false showLoadingIndicator))
      || (isFalsyNumber children && hasLoadingIndicator
          && (default false showLoadingIndicator
              || bool_decide (visualPosition = trailing)))
  ∧ showsSpinner (TextInputInnerVisualSlot children hasLoadingIndicator
                    showLoadingIndicator visualPosition)
    = hasLoadingIndicator && default false showLoadingIndicator
  ∧ showsChildren (TextInputInnerVisualSlot children hasLoadingIndicator
                     showLoadingIndicator visualPosition)
    && showsSpinner (TextInputInnerVisualSlot children hasLoadingIndicator
                       showLoadingIndicator visualPosition)
    = isFalsyNumber children && hasLoadingIndicator
      && default false showLoadingIndicator.
Proof.
  destruct children as [|text|c], hasLoadingIndicator,
    showLoadingIndicator as [[|]|], visualPosition; by split_and!.
Qed.

(** X19.  When the inner visual renders.  It renders an element exactly
    when there are truthy children, or a loading indicator is expected and
    either shown or on the trailing side: an idle trailing indicator keeps
    its place, an idle leading one does not.  The plain icon is never
    rendered without truthy children. *)
Theorem inner_visual_renders {Node : Type} (children : Children Node)
    (hasLoadingIndicator : bool) (showLoadingIndicator : option bool)
    (visualPosition : VisualPosition) :
  rendersElement (TextInputInnerVisualSlot children hasLoadingIndicator
                    showLoadingIndicator visualPosition)
    = isTruthy children
      || (hasLoadingIndicator
          && (default false showLoadingIndicator
              || bool_decide (visualPosition = trailing)))
  ∧ ∀ inner, TextInputInnerVisualSlot children hasLoadingIndicator
               showLoadingIndicator visualPosition = visualIcon inner →
             isTruthy inner = true ∧ inner = children ∧ hasLoadingIndicator = false.
Proof.
  destruct children as [|text|c], hasLoadingIndicator,
    showLoadingIndicator as [[|]|], visualPosition;
    (split; [done|]); intros inner; simpl; try done;
    intros [= <-]; by eauto.
Qed.

(** * Properties of the slots *)

Section SlotsProperties.

Context {Node Meta : Type}.

Implicit Types (s : SlotsState Node Meta) (cs : list (SlotCall Node Meta)).





Lemma slotCalls_unmounted cs s :
  isMounted s = false →
  isMounted (slotCalls s cs) = false
  ∧ forcedUpdates (slotCalls s cs) = (forcedUpdates s + unregistrations cs)%nat.
Proof.
  revert s. induction cs as [|c cs IH]; intros s Hs.
  - split; [done|]. simpl. lia.
  - unfold slotCalls in *. simpl.
    destruct (IH (slotCall s c)) as [Hm Hn]; [by destruct c|].
    split; [done|]. rewrite Hn.
    destruct c as [n contents metadata|n]; simpl; rewrite ?Hs; lia.
Qed.

Lemma slotCalls_mounted cs s :
  isMounted s = true →
  forcedUpdates (slotCalls s cs) = (forcedUpdates s + length cs)%nat.
Proof.
  revert s. induction cs as [|c cs IH]; intros s Hs; simpl; [lia|].
  unfold slotCalls in *. simpl. rewrite IH by (by destruct c).
  destruct c; simpl; rewrite ?Hs; lia.
Qed.

(** X22.  How often the update of [Slots] is forced.  Before [Slots] has
    mounted a registration forces no update and every unregistration
    forces one; the effect of [Slots] forces one; from then on every call
    forces one.  So the registrations of the first render cost one update
    in all. *)
Theorem forced_updates_count (names : list string) cs (rest : list (SlotCall Node Meta)) :
  forcedUpdates (slotCalls (initialSlots names) cs) = unregistrations cs
  ∧ forcedUpdates (slotCalls (slotsMounted (slotCalls (initialSlots names) cs)) rest)
    = (unregistrations cs + 1 + length rest)%nat.
Proof.
  destruct (slotCalls_unmounted cs (initialSlots names) eq_refl) as [_ Hn].
  split; [by rewrite Hn|].
  rewrite slotCalls_mounted by done. simpl. rewrite Hn. simpl. lia.
Qed.

End SlotsProperties.
